(** * Meat-shop backend: cart, order placement, order lifecycle, payment

    A shallow embedding of the order workflow of the backend:
    - models/Product.js, models/Cart.js, models/Order.js (schemas and
      their [pre("save")] hooks),
    - controllers/cart.js, controllers/orders.js (request handlers),
    - routes/webhooks.js (the payment gateway's webhook handler),
    - utils/calculateShipping.js,
    and, beside the order workflow, of the account and product switches of
    controllers/admin.js and controllers/users.js and of the slug hook of
    models/Category.js and models/Product.js.

    The document store is a record of finite maps; a handler is a function
    from the store and the request to the new store and the response.
    [new Date()] and [Math.random()] are read from an environment that is
    passed to the handler.  Quantities are modelled as [Z], the money and
    weights of carts and orders as [Q], so their sums and products are
    exact where the code computes them in binary64; the shipping policy of
    utils/calculateShipping.js, which is plain arithmetic on JavaScript
    numbers, is modelled on binary64 floats.  A mongoose [save] of a
    document read from the store is modelled as: run the schema's
    [pre("save")] hooks in the order they are registered, then write the
    document.  [Order.create] validates the new document before these
    hooks run, and throws when a required path is missing. *)

From Stdlib Require Import ZArith QArith Qround String Lia.
From Stdlib Require Import PrimFloat FloatOps SpecFloat.
From Stdlib Require Uint63.
From stdpp Require Import gmap list pretty.
From Stdlib Require Import Ascii.

Local Open Scope Z_scope.

(** ** Data model *)

(** Document ids, positions in the order collection, and clock readings
    (milliseconds). *)
Abbreviation ObjectId := N (only parsing).
Abbreviation OrderId := nat (only parsing).
Abbreviation Date := Z (only parsing).

Record Env := mkEnv {
  env_now : Date;       (* new Date() / Date.now() *)
  env_random : Z        (* Math.floor(Math.random() * 1000) *)
}.

Inductive Role := customer | admin.

Record User := mkUser { u_id : ObjectId; u_role : Role }.

Inductive Status :=
  pending | confirmed | processing | shipped | delivered | cancelled | refunded.

#[global] Instance Status_eq_dec : EqDecision Status.
Proof. solve_decision. Defined.

#[global] Instance Role_eq_dec : EqDecision Role.
Proof. solve_decision. Defined.

(** models/Product.js, the fields the workflow reads. *)
Record Product := mkProduct {
  p_name : string;
  p_price : Q;
  p_weight : Q;                  (* weight.value *)
  p_image : option string;       (* images[0]?.url *)
  p_isActive : bool;
  p_trackQuantity : bool;        (* inventory.trackQuantity *)
  p_quantity : Z                 (* inventory.quantity *)
}.

Definition set_quantity (p : Product) (q : Z) : Product :=
  {| p_name := p_name p; p_price := p_price p; p_weight := p_weight p;
     p_image := p_image p; p_isActive := p_isActive p;
     p_trackQuantity := p_trackQuantity p; p_quantity := q |}.

(** models/Cart.js *)
Record CartItem := mkCartItem {
  ci_product : ObjectId;
  ci_quantity : Z;
  ci_price : Q;
  ci_totalPrice : Q
}.

Record Cart := mkCart {
  cart_items : list CartItem;
  cart_totalItems : Z;
  cart_totalAmount : Q;
  cart_lastModified : Date
}.

(** models/Order.js *)
Record OrderItem := mkOrderItem {
  oi_product : ObjectId;
  oi_name : string;
  oi_image : string;
  oi_price : Q;
  oi_quantity : Z;
  oi_totalPrice : Q
}.

Record Address := mkAddress {
  a_name : string; a_street : string; a_city : string; a_state : string;
  a_zipCode : string; a_country : string; a_phone : string
}.

Inductive PaymentMethod := stripe | paypal | cash.

Record PaymentInfo := mkPaymentInfo {
  pay_method : PaymentMethod;
  pay_transactionId : option string;
  pay_paidAt : option Date
}.

Record HistoryEntry := mkHistoryEntry {
  h_status : Status;
  h_date : Date;
  h_note : option string
}.

(** [MS${timestamp.slice(-6)}${random}]: the last six digits of the clock
    and a three-digit random number. *)
Record OrderNumber := mkOrderNumber { on_stamp : Z; on_random : Z }.

Record Order := mkOrder {
  o_orderNumber : option OrderNumber;
  o_user : ObjectId;
  o_items : list OrderItem;
  o_shippingAddress : Address;
  o_paymentInfo : PaymentInfo;
  o_itemsPrice : Q;
  o_taxPrice : Q;
  o_shippingPrice : Q;
  o_totalPrice : Q;
  o_status : Status;
  o_isPaid : bool;
  o_isDelivered : bool;
  o_deliveredAt : option Date;
  o_notes : option string;
  o_trackingNumber : option string;
  o_estimatedDelivery : option Date;
  o_statusHistory : list HistoryEntry
}.

Definition set_orderNumber (o : Order) (n : option OrderNumber) : Order :=
  mkOrder n (o_user o) (o_items o) (o_shippingAddress o) (o_paymentInfo o)
    (o_itemsPrice o) (o_taxPrice o) (o_shippingPrice o) (o_totalPrice o)
    (o_status o) (o_isPaid o) (o_isDelivered o) (o_deliveredAt o) (o_notes o)
    (o_trackingNumber o) (o_estimatedDelivery o) (o_statusHistory o).

Definition set_paymentInfo (o : Order) (p : PaymentInfo) : Order :=
  mkOrder (o_orderNumber o) (o_user o) (o_items o) (o_shippingAddress o) p
    (o_itemsPrice o) (o_taxPrice o) (o_shippingPrice o) (o_totalPrice o)
    (o_status o) (o_isPaid o) (o_isDelivered o) (o_deliveredAt o) (o_notes o)
    (o_trackingNumber o) (o_estimatedDelivery o) (o_statusHistory o).

Definition set_status (o : Order) (st : Status) : Order :=
  mkOrder (o_orderNumber o) (o_user o) (o_items o) (o_shippingAddress o)
    (o_paymentInfo o)
    (o_itemsPrice o) (o_taxPrice o) (o_shippingPrice o) (o_totalPrice o)
    st (o_isPaid o) (o_isDelivered o) (o_deliveredAt o) (o_notes o)
    (o_trackingNumber o) (o_estimatedDelivery o) (o_statusHistory o).

Definition set_isPaid (o : Order) (b : bool) : Order :=
  mkOrder (o_orderNumber o) (o_user o) (o_items o) (o_shippingAddress o)
    (o_paymentInfo o)
    (o_itemsPrice o) (o_taxPrice o) (o_shippingPrice o) (o_totalPrice o)
    (o_status o) b (o_isDelivered o) (o_deliveredAt o) (o_notes o)
    (o_trackingNumber o) (o_estimatedDelivery o) (o_statusHistory o).

Definition set_delivered (o : Order) (b : bool) (d : option Date) : Order :=
  mkOrder (o_orderNumber o) (o_user o) (o_items o) (o_shippingAddress o)
    (o_paymentInfo o)
    (o_itemsPrice o) (o_taxPrice o) (o_shippingPrice o) (o_totalPrice o)
    (o_status o) (o_isPaid o) b d (o_notes o)
    (o_trackingNumber o) (o_estimatedDelivery o) (o_statusHistory o).

Definition set_trackingNumber (o : Order) (t : option string) : Order :=
  mkOrder (o_orderNumber o) (o_user o) (o_items o) (o_shippingAddress o)
    (o_paymentInfo o)
    (o_itemsPrice o) (o_taxPrice o) (o_shippingPrice o) (o_totalPrice o)
    (o_status o) (o_isPaid o) (o_isDelivered o) (o_deliveredAt o) (o_notes o)
    t (o_estimatedDelivery o) (o_statusHistory o).

Definition set_estimatedDelivery (o : Order) (d : option Date) : Order :=
  mkOrder (o_orderNumber o) (o_user o) (o_items o) (o_shippingAddress o)
    (o_paymentInfo o)
    (o_itemsPrice o) (o_taxPrice o) (o_shippingPrice o) (o_totalPrice o)
    (o_status o) (o_isPaid o) (o_isDelivered o) (o_deliveredAt o) (o_notes o)
    (o_trackingNumber o) d (o_statusHistory o).

Definition set_statusHistory (o : Order) (h : list HistoryEntry) : Order :=
  mkOrder (o_orderNumber o) (o_user o) (o_items o) (o_shippingAddress o)
    (o_paymentInfo o)
    (o_itemsPrice o) (o_taxPrice o) (o_shippingPrice o) (o_totalPrice o)
    (o_status o) (o_isPaid o) (o_isDelivered o) (o_deliveredAt o) (o_notes o)
    (o_trackingNumber o) (o_estimatedDelivery o) h.

(** [array.push(x)] *)
Definition push {A} (l : list A) (x : A) : list A := l ++ [x].

(** The document store: products and carts by id (a cart is keyed by the
    account that owns it, which the schema declares unique), orders in
    creation order, an order's id being its position. *)
Record Store := mkStore {
  products : gmap ObjectId Product;
  carts : gmap ObjectId Cart;
  orders : list Order
}.

Definition set_products (s : Store) (ps : gmap ObjectId Product) : Store :=
  mkStore ps (carts s) (orders s).
Definition set_carts (s : Store) (cs : gmap ObjectId Cart) : Store :=
  mkStore (products s) cs (orders s).
Definition set_orders (s : Store) (os : list Order) : Store :=
  mkStore (products s) (carts s) os.

(** ** Responses *)

Inductive Error :=
  | ValidationFailed
  | CartEmpty
  | ProductUnavailable (name : option string)
  | InsufficientStock (available : Z) (name : option string)
  | ProductNotFound
  | CartNotFound
  | ItemNotInCart
  | OrderNotFound
  | NotAuthorized
  | CannotCancel
  | PaymentNotSuccessful
  | ServerError.

Inductive Response (A : Type) :=
  | Success (code : Z) (data : A)
  | Failure (code : Z) (err : Error).
Arguments Success {A} code data.
Arguments Failure {A} code err.

(** A JavaScript string used as a condition: absent and empty are falsy. *)
Definition truthy (s : option string) : bool :=
  match s with
  | Some EmptyString => false
  | Some _ => true
  | None => false
  end.

(** ** models/Order.js: the three [pre("save")] hooks *)

Definition genOrderNumber (e : Env) : OrderNumber :=
  mkOrderNumber (env_now e mod 1000000) (env_random e).

(** Generate order number before saving. *)
Definition hook_orderNumber (e : Env) (o : Order) : Order :=
  match o_orderNumber o with
  | Some _ => o
  | None => set_orderNumber o (Some (genOrderNumber e))
  end.

(** [this.isModified("status")]: mongoose marks a path modified when it is
    assigned a value that differs from the one the document was loaded
    with; [loaded] is the status the document had when it was read. *)
Definition isModified_status (loaded : Status) (o : Order) : bool :=
  bool_decide (o_status o ≠ loaded).

(** Add status to history when status changes. *)
Definition hook_statusHistory (e : Env) (isNew : bool) (loaded : Status)
    (o : Order) : Order :=
  if isModified_status loaded o && negb isNew
  then set_statusHistory o
         (push (o_statusHistory o) (mkHistoryEntry (o_status o) (env_now e) None))
  else o.

(** Update delivered status and date. *)
Definition hook_delivered (e : Env) (o : Order) : Order :=
  if bool_decide (o_status o = delivered) && negb (o_isDelivered o)
  then set_delivered o true (Some (env_now e))
  else o.

Definition pre_save_order (e : Env) (isNew : bool) (loaded : Status)
    (o : Order) : Order :=
  hook_delivered e (hook_statusHistory e isNew loaded (hook_orderNumber e o)).

(** [order.save()] on a document read from the store under [id]. *)
Definition save_order (e : Env) (id : OrderId) (loaded : Status) (o : Order)
    (s : Store) : Store * Order :=
  let o' := pre_save_order e false loaded o in
  (set_orders s (<[id := o']> (orders s)), o').

(** The schema's [required] paths, checked when a document is validated.
    A document built by [createOrder] carries every required path except
    [orderNumber] ([required: true], no default). *)
Definition validate_order (o : Order) : bool :=
  match o_orderNumber o with
  | Some _ => true
  | None => false
  end.

(** [Order.create(doc)]: a new document, saved for the first time.
    Mongoose validates the document before it runs the schema's
    [pre("save")] hooks, so the order number the first hook would generate
    comes too late for the [required] check: [None] is the
    [ValidationError] that [Order.create] throws, with nothing written. *)
Definition Order_create (e : Env) (o : Order) (s : Store)
    : option (Store * Order) :=
  if validate_order o then
    let o' := pre_save_order e true (o_status o) o in
    Some (set_orders s (push (orders s) o'), o')
  else None.

(** ** controllers/orders.js *)

(** *** updateOrderStatus (also the admin controller's copy) *)

Record StatusUpdate := mkStatusUpdate {
  su_valid : bool;                       (* validationResult(req).isEmpty() *)
  su_status : Status;
  su_note : option string;
  su_trackingNumber : option string;
  su_estimatedDelivery : option Date
}.

Definition updateOrderStatus (e : Env) (id : OrderId) (req : StatusUpdate)
    (s : Store) : Store * Response Order :=
  if negb (su_valid req) then (s, Failure 400 ValidationFailed) else
  match orders s !! id with
  | None => (s, Failure 404 OrderNotFound)
  | Some order =>
      let o1 := set_status order (su_status req) in
      let o2 :=
        if truthy (su_note req)
        then set_statusHistory o1
               (push (o_statusHistory o1)
                  (mkHistoryEntry (su_status req) (env_now e) (su_note req)))
        else o1 in
      let o3 :=
        if truthy (su_trackingNumber req)
        then set_trackingNumber o2 (su_trackingNumber req) else o2 in
      let o4 :=
        match su_estimatedDelivery req with
        | Some d => set_estimatedDelivery o3 (Some d)
        | None => o3
        end in
      let '(s', o') := save_order e id (o_status order) o4 s in
      (s', Success 200 o')
  end.

(** *** cancelOrder *)

(** Restore product inventory: each product is read from the store, changed
    and saved, one order line after the other. *)
Definition restoreLine (ps : gmap ObjectId Product) (item : OrderItem)
    : gmap ObjectId Product :=
  match ps !! oi_product item with
  | Some p =>
      if p_trackQuantity p
      then <[oi_product item := set_quantity p (p_quantity p + oi_quantity item)]> ps
      else ps
  | None => ps
  end.

Definition restoreInventory (items : list OrderItem)
    (ps : gmap ObjectId Product) : gmap ObjectId Product :=
  fold_left restoreLine items ps.

Definition cancelNote (u : User) : string :=
  match u_role u with
  | admin => "Cancelled by admin"
  | customer => "Cancelled by customer"
  end.

Definition canCancel (st : Status) : bool :=
  bool_decide (st = pending) || bool_decide (st = confirmed).

Definition cancelOrder (e : Env) (u : User) (id : OrderId) (s : Store)
    : Store * Response Order :=
  match orders s !! id with
  | None => (s, Failure 404 OrderNotFound)
  | Some order =>
      if bool_decide (o_user order ≠ u_id u) && bool_decide (u_role u ≠ admin)
      then (s, Failure 403 NotAuthorized)
      else if negb (canCancel (o_status order))
      then (s, Failure 400 CannotCancel)
      else
        let o1 := set_status order cancelled in
        let o2 := set_statusHistory o1
                    (push (o_statusHistory o1)
                       (mkHistoryEntry cancelled (env_now e) (Some (cancelNote u)))) in
        let s1 := set_products s (restoreInventory (o_items order) (products s)) in
        let '(s2, o') := save_order e id (o_status order) o2 s1 in
        (s2, Success 200 o')
  end.

(** *** confirmPayment *)

(** The status the gateway reports for a payment intent. *)
Inductive IntentStatus :=
  | requires_payment_method | requires_confirmation | requires_action
  | intent_processing | requires_capture | canceled | succeeded.

Definition markPaid (e : Env) (txn : string) (order : Order) : Order :=
  let o1 := set_isPaid order true in
  let o2 := set_paymentInfo o1
              (mkPaymentInfo (pay_method (o_paymentInfo o1)) (Some txn)
                 (pay_paidAt (o_paymentInfo o1))) in
  let o3 := set_paymentInfo o2
              (mkPaymentInfo (pay_method (o_paymentInfo o2))
                 (pay_transactionId (o_paymentInfo o2)) (Some (env_now e))) in
  set_status o3 confirmed.

(** [retrieved] is what [stripe.paymentIntents.retrieve] answers; [None]
    when the call throws. *)
Definition confirmPayment (e : Env) (u : User) (id : OrderId)
    (paymentIntentId : string) (retrieved : option IntentStatus) (s : Store)
    : Store * Response Order :=
  match orders s !! id with
  | None => (s, Failure 404 OrderNotFound)
  | Some order =>
      if bool_decide (o_user order ≠ u_id u)
      then (s, Failure 403 NotAuthorized)
      else match retrieved with
      | None => (s, Failure 500 ServerError)
      | Some succeeded =>
          let '(s', o') :=
            save_order e id (o_status order) (markPaid e paymentIntentId order) s in
          (s', Success 200 o')
      | Some _ => (s, Failure 400 PaymentNotSuccessful)
      end
  end.

(** ** The webhook router *)

Record PaymentIntent := mkPaymentIntent {
  intent_id : string;
  intent_orderId : OrderId            (* metadata.orderId *)
}.

Definition handlePaymentSuccess (e : Env) (paymentIntent : PaymentIntent)
    (s : Store) : Store :=
  match orders s !! intent_orderId paymentIntent with
  | Some order =>
      fst (save_order e (intent_orderId paymentIntent) (o_status order)
             (markPaid e (intent_id paymentIntent) order) s)
  | None => s
  end.

(** A failed payment only sends a notification; a dispute only alerts the
    administrator. *)
Definition handlePaymentFailure (paymentIntent : PaymentIntent) (s : Store)
    : Store := s.

Inductive Event :=
  | payment_intent_succeeded (paymentIntent : PaymentIntent)
  | payment_intent_payment_failed (paymentIntent : PaymentIntent)
  | charge_dispute_created
  | other_event.

(** [signed]: the signature check of [stripe.webhooks.constructEvent]. *)
Definition stripeWebhook (e : Env) (signed : bool) (ev : Event) (s : Store)
    : Store * Z :=
  if negb signed then (s, 400) else
  match ev with
  | payment_intent_succeeded paymentIntent =>
      (handlePaymentSuccess e paymentIntent s, 200)
  | payment_intent_payment_failed paymentIntent =>
      (handlePaymentFailure paymentIntent s, 200)
  | charge_dispute_created => (s, 200)
  | other_event => (s, 200)
  end.

(** ** models/Cart.js: the [pre("save")] hooks *)

Definition set_items (c : Cart) (items : list CartItem) : Cart :=
  mkCart items (cart_totalItems c) (cart_totalAmount c) (cart_lastModified c).

(** Update item total price when quantity or price changes. *)
Definition item_pre_save (i : CartItem) : CartItem :=
  mkCartItem (ci_product i) (ci_quantity i) (ci_price i)
    (inject_Z (ci_quantity i) * ci_price i)%Q.

Definition sumQuantity (items : list CartItem) : Z :=
  fold_left (fun total item => total + ci_quantity item) items 0.

Definition sumTotalPrice (items : list CartItem) : Q :=
  fold_left (fun total item => (total + ci_totalPrice item)%Q) items 0%Q.

(** Calculate totals before saving. *)
Definition cart_pre_save (e : Env) (c : Cart) : Cart :=
  mkCart (cart_items c) (sumQuantity (cart_items c))
    (sumTotalPrice (cart_items c)) (env_now e).

(** [cart.save()]: the hooks of the line items run before the hook of the
    cart that embeds them. *)
Definition save_cart (e : Env) (owner : ObjectId) (c : Cart) (s : Store)
    : Store * Cart :=
  let c' := cart_pre_save e (set_items c (map item_pre_save (cart_items c))) in
  (set_carts s (<[owner := c']> (carts s)), c').

(** [Cart.create({ user, items: [] })] *)
Definition Cart_create (e : Env) (owner : ObjectId) (s : Store) : Store * Cart :=
  save_cart e owner (mkCart [] 0 0%Q (env_now e)) s.

Definition findOrCreateCart (e : Env) (owner : ObjectId) (s : Store)
    : Store * Cart :=
  match carts s !! owner with
  | Some c => (s, c)
  | None => Cart_create e owner s
  end.

(** ** controllers/cart.js *)

(** [item.product && item.product.isActive] on a populated line. *)
Definition lineActive (ps : gmap ObjectId Product) (item : CartItem) : bool :=
  match ps !! ci_product item with
  | Some p => p_isActive p
  | None => false
  end.

Definition getCart (e : Env) (u : User) (s : Store) : Store * Response Cart :=
  let '(s1, cart) := findOrCreateCart e (u_id u) s in
  let activeItems := List.filter (lineActive (products s)) (cart_items cart) in
  if negb (length activeItems =? length (cart_items cart))%nat
  then let '(s2, cart') := save_cart e (u_id u) (set_items cart activeItems) s1 in
       (s2, Success 200 cart')
  else (s1, Success 200 cart).

(** The body of a cart request: the product id in the lower-case spelling
    that [ObjectId.toString()] gives, the quantity as a JSON number. *)
Record CartRequest := mkCartRequest {
  cr_valid : bool;
  cr_productId : ObjectId;
  cr_quantity : Z
}.

(** [items.findIndex(item => item.product.toString() === productId)],
    together with the element found. *)
Definition findLine (productId : ObjectId) (items : list CartItem)
    : option (nat * CartItem) :=
  list_find (fun item => ci_product item = productId) items.

Definition outOfStock (product : Product) (quantity : Z) : bool :=
  p_trackQuantity product && (p_quantity product <? quantity).

Definition addToCart (e : Env) (u : User) (req : CartRequest) (s : Store)
    : Store * Response Cart :=
  if negb (cr_valid req) then (s, Failure 400 ValidationFailed) else
  match products s !! cr_productId req with
  | None => (s, Failure 404 ProductNotFound)
  | Some product =>
      if negb (p_isActive product) then (s, Failure 404 ProductNotFound)
      else if outOfStock product (cr_quantity req)
      then (s, Failure 400 (InsufficientStock (p_quantity product) None))
      else
        let '(s1, cart) := findOrCreateCart e (u_id u) s in
        match findLine (cr_productId req) (cart_items cart) with
        | Some (existingItemIndex, existing) =>
            let newQuantity := ci_quantity existing + cr_quantity req in
            if outOfStock product newQuantity
            then (s1, Failure 400 (InsufficientStock (p_quantity product) None))
            else
              let item' := mkCartItem (ci_product existing) newQuantity
                             (p_price product)
                             (inject_Z newQuantity * p_price product)%Q in
              let '(s2, cart') :=
                save_cart e (u_id u)
                  (set_items cart (<[existingItemIndex := item']> (cart_items cart))) s1 in
              (s2, Success 200 cart')
        | None =>
            let item := mkCartItem (cr_productId req) (cr_quantity req)
                          (p_price product)
                          (inject_Z (cr_quantity req) * p_price product)%Q in
            let '(s2, cart') :=
              save_cart e (u_id u) (set_items cart (push (cart_items cart) item)) s1 in
            (s2, Success 200 cart')
        end
  end.

Definition updateCartItem (e : Env) (u : User) (req : CartRequest) (s : Store)
    : Store * Response Cart :=
  if negb (cr_valid req) then (s, Failure 400 ValidationFailed) else
  match carts s !! u_id u with
  | None => (s, Failure 404 CartNotFound)
  | Some cart =>
      match findLine (cr_productId req) (cart_items cart) with
      | None => (s, Failure 404 ItemNotInCart)
      | Some (itemIndex, existing) =>
          match products s !! cr_productId req with
          | None => (s, Failure 404 ProductNotFound)
          | Some product =>
              if negb (p_isActive product) then (s, Failure 404 ProductNotFound)
              else if outOfStock product (cr_quantity req)
              then (s, Failure 400 (InsufficientStock (p_quantity product) None))
              else
                let item' := mkCartItem (ci_product existing) (cr_quantity req)
                               (p_price product)
                               (inject_Z (cr_quantity req) * p_price product)%Q in
                let '(s1, cart') :=
                  save_cart e (u_id u)
                    (set_items cart (<[itemIndex := item']> (cart_items cart))) s in
                (s1, Success 200 cart')
          end
      end
  end.

Definition removeFromCart (e : Env) (u : User) (productId : ObjectId)
    (s : Store) : Store * Response Cart :=
  match carts s !! u_id u with
  | None => (s, Failure 404 CartNotFound)
  | Some cart =>
      let items :=
        List.filter (fun item => bool_decide (ci_product item ≠ productId))
          (cart_items cart) in
      let '(s1, cart') := save_cart e (u_id u) (set_items cart items) s in
      (s1, Success 200 cart')
  end.

Definition clearCart (e : Env) (u : User) (s : Store) : Store * Response Cart :=
  let '(s1, cart) := findOrCreateCart e (u_id u) s in
  let '(s2, cart') := save_cart e (u_id u) (set_items cart []) s1 in
  (s2, Success 200 cart').

Record SyncItem := mkSyncItem { si_productId : ObjectId; si_quantity : Z }.

Fixpoint syncItems (ps : gmap ObjectId Product) (items : list SyncItem)
    (newCartItems : list CartItem) (syncErrors : list Error)
    : list CartItem * list Error :=
  match items with
  | [] => (newCartItems, syncErrors)
  | item :: rest =>
      match ps !! si_productId item with
      | None => syncItems ps rest newCartItems (push syncErrors ProductNotFound)
      | Some product =>
          if negb (p_isActive product)
          then syncItems ps rest newCartItems (push syncErrors ProductNotFound)
          else if outOfStock product (si_quantity item)
          then syncItems ps rest newCartItems
                 (push syncErrors
                    (InsufficientStock (p_quantity product) (Some (p_name product))))
          else syncItems ps rest
                 (push newCartItems
                    (mkCartItem (si_productId item) (si_quantity item)
                       (p_price product)
                       (inject_Z (si_quantity item) * p_price product)%Q))
                 syncErrors
      end
  end.

Definition syncCart (e : Env) (u : User) (valid : bool) (items : list SyncItem)
    (s : Store) : Store * Response (Cart * list Error) :=
  if negb valid then (s, Failure 400 ValidationFailed) else
  let '(s1, cart) := findOrCreateCart e (u_id u) s in
  let '(newCartItems, syncErrors) := syncItems (products s1) items [] [] in
  let '(s2, cart') := save_cart e (u_id u) (set_items cart newCartItems) s1 in
  (s2, Success 200 (cart', syncErrors)).

(** ** controllers/orders.js: createOrder *)

Record OrderRequest := mkOrderRequest {
  or_valid : bool;                       (* validationResult(req).isEmpty() *)
  or_shippingAddress : Address;
  or_paymentMethod : PaymentMethod;
  or_notes : option string
}.

(** [.populate("items.product")]: the referenced products are read in one
    query and every line that names the same product is handed the same
    document, so the table holds one document per product id. *)
Definition populate (ps : gmap ObjectId Product) (items : list CartItem)
    : gmap ObjectId Product :=
  filter (fun kv => fst kv ∈ map ci_product items) ps.

Definition orderItemOf (product : Product) (cartItem : CartItem) : OrderItem :=
  mkOrderItem (ci_product cartItem) (p_name product)
    (default "/placeholder.svg"%string (p_image product))
    (p_price product) (ci_quantity cartItem)
    (p_price product * inject_Z (ci_quantity cartItem))%Q.

(** Validate cart items and check inventory: the first loop. *)
Fixpoint validateItems (docs : gmap ObjectId Product) (items : list CartItem)
    (orderItems : list OrderItem) (itemsPrice : Q)
    : Error + (list OrderItem * Q) :=
  match items with
  | [] => inr (orderItems, itemsPrice)
  | cartItem :: rest =>
      match docs !! ci_product cartItem with
      | None => inl (ProductUnavailable None)
      | Some product =>
          if negb (p_isActive product)
          then inl (ProductUnavailable (Some (p_name product)))
          else if outOfStock product (ci_quantity cartItem)
          then inl (InsufficientStock (p_quantity product) (Some (p_name product)))
          else
            let orderItem := orderItemOf product cartItem in
            validateItems docs rest (push orderItems orderItem)
              (itemsPrice + oi_totalPrice orderItem)%Q
      end
  end.

(** Update product inventory: the second loop.  It changes the populated
    documents and saves each one; the flag is [false] when a line has no
    document and reading [product.inventory] throws. *)
Fixpoint updateInventory (items : list CartItem)
    (docs ps : gmap ObjectId Product) : gmap ObjectId Product * bool :=
  match items with
  | [] => (ps, true)
  | cartItem :: rest =>
      match docs !! ci_product cartItem with
      | None => (ps, false)
      | Some product =>
          if p_trackQuantity product
          then
            let product' :=
              set_quantity product (p_quantity product - ci_quantity cartItem) in
            updateInventory rest (<[ci_product cartItem := product']> docs)
              (<[ci_product cartItem := product']> ps)
          else updateInventory rest docs ps
      end
  end.

Definition Qlt_bool (x y : Q) : bool := negb (Qle_bool y x).

(** [Math.round(x)] *)
Definition Math_round (x : Q) : Z := Qfloor (x + (1 # 2)).

Definition taxRate : Q := 8 # 100.

Definition taxPriceOf (itemsPrice : Q) : Q :=
  (inject_Z (Math_round (itemsPrice * taxRate * 100)) / 100)%Q.

(** Free shipping over $100. *)
Definition shippingPriceOf (itemsPrice : Q) : Q :=
  if Qlt_bool 100 itemsPrice then 0%Q else 10%Q.

Definition newOrder (u : User) (req : OrderRequest)
    (orderItems : list OrderItem) (itemsPrice : Q) : Order :=
  let taxPrice := taxPriceOf itemsPrice in
  let shippingPrice := shippingPriceOf itemsPrice in
  let totalPrice := (itemsPrice + taxPrice + shippingPrice)%Q in
  mkOrder None (u_id u) orderItems (or_shippingAddress req)
    (mkPaymentInfo (or_paymentMethod req) None None)
    itemsPrice taxPrice shippingPrice totalPrice
    pending false false None (or_notes req) None None [].

(** [createOrder] up to its call of [Order.create]: the checks on the
    request and the cart, and the document that is then handed to
    [Order.create]. *)
Definition buildOrder (u : User) (req : OrderRequest) (s : Store)
    : Error + (Cart * Order) :=
  if negb (or_valid req) then inl ValidationFailed else
  match carts s !! u_id u with
  | None => inl CartEmpty
  | Some cart =>
      if (length (cart_items cart) =? 0)%nat then inl CartEmpty
      else
        let docs := populate (products s) (cart_items cart) in
        match validateItems docs (cart_items cart) [] 0%Q with
        | inl err => inl err
        | inr (orderItems, itemsPrice) =>
            inr (cart, newOrder u req orderItems itemsPrice)
        end
  end.

(** The handler: a failed check answers 400; an exception of
    [Order.create] or of a later step is caught and answered 500. *)
Definition createOrder (e : Env) (u : User) (req : OrderRequest) (s : Store)
    : Store * Response Order :=
  match buildOrder u req s with
  | inl err => (s, Failure 400 err)
  | inr (cart, doc) =>
      match Order_create e doc s with
      | None => (s, Failure 500 ServerError)
      | Some (s1, order) =>
          let docs := populate (products s) (cart_items cart) in
          match updateInventory (cart_items cart) docs (products s1) with
          | (ps, false) => (set_products s1 ps, Failure 500 ServerError)
          | (ps, true) =>
              let s2 := set_products s1 ps in
              let '(s3, _) := save_cart e (u_id u) (set_items cart []) s2 in
              (s3, Success 201 order)
          end
      end
  end.

(** ** utils/calculateShipping.js: calculateShipping

    The function is plain arithmetic on JavaScript numbers, modelled on
    binary64 floats. *)

(** [Math.ceil(x)] *)
Definition Math_ceil (x : float) : float :=
  match Prim2SF x with
  | S754_finite sign m e =>
      if 0 <=? e then x
      else
        let d := 2 ^ (- e) in
        let q := Z.pos m / d in
        let r := Z.pos m mod d in
        if sign then (- of_uint63 (Uint63.of_Z q))%float
        else of_uint63 (Uint63.of_Z (if 0 <? r then q + 1 else q))
  | _ => x
  end.

(** [Math.min(a, b)] *)
Definition Math_min (a b : float) : float :=
  if PrimFloat.is_nan a || PrimFloat.is_nan b then nan
  else if (a <? b)%float then a
  else if (b <? a)%float then b
  else if PrimFloat.is_zero a && get_sign a then a else b.

(** A cart line as [calculateShipping] reads it:
    [item.product.weight.value], [item.quantity], [item.totalPrice]. *)
Record ShippingItem := mkShippingItem {
  sh_weight : float;
  sh_quantity : float;
  sh_totalPrice : float
}.

Definition calculateShipping (items : list ShippingItem) : float :=
  let totalWeight :=
    fold_left (fun total item =>
                 let weight := (sh_weight item * sh_quantity item)%float in
                 (total + weight)%float)
      items 0%float in
  (* Free shipping over $100 *)
  let itemsTotal :=
    fold_left (fun total item => (total + sh_totalPrice item)%float)
      items 0%float in
  if (100 <=? itemsTotal)%float then 0%float
  else
    (* Base shipping rate *)
    let shippingCost := 10%float in
    (* Weight-based pricing *)
    let shippingCost :=
      if (10 <? totalWeight)%float
      then (shippingCost + Math_ceil ((totalWeight - 10) / 5) * 5)%float
      else shippingCost in
    Math_min shippingCost 50.   (* Cap at $50 *)

(** ** controllers/orders.js: payment intents and the order list *)

(** A handler's answer when its errors are its own. *)
Inductive Reply (E A : Type) :=
  | Done (code : Z) (data : A)
  | Refused (code : Z) (err : E).
Arguments Done {E A} code data.
Arguments Refused {E A} code err.

Inductive IntentError :=
  | IntentOrderNotFound
  | IntentNotAuthorized
  | OrderAlreadyPaid
  | IntentServerError.

(** The arguments of [stripe.paymentIntents.create]. *)
Record IntentParams := mkIntentParams {
  ip_amount : Z;                 (* in cents *)
  ip_currency : string;
  ip_orderId : OrderId;          (* metadata.orderId *)
  ip_userId : ObjectId           (* metadata.userId *)
}.

(** [gateway] is [stripe.paymentIntents.create]: the client secret of the
    intent it creates, or [None] when the call throws. *)
Definition createPaymentIntent (gateway : IntentParams → option string)
    (u : User) (id : OrderId) (s : Store)
    : Store * Reply IntentError string :=
  match orders s !! id with
  | None => (s, Refused 404 IntentOrderNotFound)
  | Some order =>
      if bool_decide (o_user order ≠ u_id u)
      then (s, Refused 403 IntentNotAuthorized)
      else if o_isPaid order then (s, Refused 400 OrderAlreadyPaid)
      else
        match gateway (mkIntentParams (Math_round (o_totalPrice order * 100))
                         "usd" id (u_id u)) with
        | Some clientSecret => (s, Done 200 clientSecret)
        | None => (s, Refused 500 IntentServerError)
        end
  end.

Definition status_name (st : Status) : string :=
  match st with
  | pending => "pending" | confirmed => "confirmed"
  | processing => "processing" | shipped => "shipped"
  | delivered => "delivered" | cancelled => "cancelled"
  | refunded => "refunded"
  end.

(** [Number.parseInt(x, 10) || d] on a query parameter that is absent, not a
    number ([None]) or a non-negative integer. *)
Definition orDefault (parsed : option N) (d : N) : N :=
  match parsed with
  | None => d
  | Some 0%N => d
  | Some n => n
  end.

Record PageLink := mkPageLink { link_page : N; link_limit : N }.

Record OrderPage := mkOrderPage {
  page_count : nat;
  page_total : N;
  page_next : option PageLink;
  page_prev : option PageLink;
  page_data : list Order
}.

(** The query [{ user, status? }]. *)
Definition ordersOf (u : User) (status : option string) (s : Store) : list Order :=
  List.filter
    (fun o => bool_decide (o_user o = u_id u)
              && (if truthy status
                  then bool_decide (Some (status_name (o_status o)) = status)
                  else true))
    (orders s).

(** [getOrders]: the caller's orders, newest first (the collection is kept
    in creation order), one page of them. *)
Definition getOrders (u : User) (page limit : option N) (status : option string)
    (s : Store) : OrderPage :=
  let page := orDefault page 1 in
  let limit := orDefault limit 10 in
  let startIndex := ((page - 1) * limit)%N in
  let found := ordersOf u status s in
  let total := N.of_nat (length found) in
  let data := take (N.to_nat limit) (drop (N.to_nat startIndex) (rev found)) in
  let endIndex := (page * limit)%N in
  mkOrderPage (length data) total
    (if (endIndex <? total)%N then Some (mkPageLink (page + 1) limit) else None)
    (if (0 <? startIndex)%N then Some (mkPageLink (page - 1) limit) else None)
    data.

(** ** controllers/admin.js and controllers/users.js: switches *)

Definition set_isActive (p : Product) (b : bool) : Product :=
  {| p_name := p_name p; p_price := p_price p; p_weight := p_weight p;
     p_image := p_image p; p_isActive := b;
     p_trackQuantity := p_trackQuantity p; p_quantity := p_quantity p |}.

Definition toggleProductStatus (id : ObjectId) (s : Store)
    : Store * Response (ObjectId * string * bool) :=
  match products s !! id with
  | None => (s, Failure 404 ProductNotFound)
  | Some product =>
      let product' := set_isActive product (negb (p_isActive product)) in
      (set_products s (<[id := product']> (products s)),
       Success 200 (id, p_name product', p_isActive product'))
  end.

(** models/User.js, the fields the account handlers touch. *)
Record Account := mkAccount {
  acc_email : string;
  acc_role : Role;
  acc_isActive : bool
}.

Inductive AccountError :=
  | UserNotFound
  | OwnAccount
  | PendingOrders.

(** [status: { $in: ["pending", "confirmed", "processing", "shipped"] }] *)
Definition openStatus (st : Status) : bool :=
  match st with
  | pending | confirmed | processing | shipped => true
  | delivered | cancelled | refunded => false
  end.

(** [Order.countDocuments({ user, status: { $in: [...] } })] *)
Definition pendingOrders (userId : ObjectId) (s : Store) : nat :=
  length (List.filter
            (fun o => bool_decide (o_user o = userId) && openStatus (o_status o))
            (orders s)).

(** controllers/users.js, [deleteUserAccount]: the account is kept, marked
    inactive, and its email is renamed. *)
Definition deleteUserAccount (e : Env) (u : User)
    (accounts : gmap N Account) (s : Store)
    : gmap N Account * Store * Reply AccountError unit :=
  match accounts !! u_id u with
  | None => (accounts, s, Refused 404 UserNotFound)
  | Some user =>
      if (0 <? pendingOrders (u_id u) s)%nat
      then (accounts, s, Refused 400 PendingOrders)
      else
        let s1 := set_carts s (delete (u_id u) (carts s)) in
        let user' :=
          mkAccount ("deleted_" +:+ pretty (env_now e) +:+ "_" +:+ acc_email user)
            (acc_role user) false in
        (<[u_id u := user']> accounts, s1, Done 200 ())
  end.


(** ** models/Category.js and models/Product.js: the slug hook *)

(** Characters are code points up to 255. *)
Definition inRange (lo hi : nat) (c : ascii) : bool :=
  ((lo <=? nat_of_ascii c) && (nat_of_ascii c <=? hi))%nat.

(** [String.prototype.toLowerCase], one character. *)
Definition toLowerCase_char (c : ascii) : ascii :=
  if inRange 65 90 c
     || (inRange 192 222 c && negb (nat_of_ascii c =? 215)%nat)
  then ascii_of_nat (nat_of_ascii c + 32)
  else c.

(** The class [[a-zA-Z0-9]]. *)
Definition isAlnum (c : ascii) : bool :=
  inRange 97 122 c || inRange 65 90 c || inRange 48 57 c.

Fixpoint string_map (f : ascii → ascii) (str : string) : string :=
  match str with
  | EmptyString => EmptyString
  | String c rest => String (f c) (string_map f rest)
  end.

(** [name.toLowerCase().replace(/[^a-zA-Z0-9]/g, "-")] *)
Definition slugify (name : string) : string :=
  string_map (fun c => if isAlnum c then c else "-"%char)
    (string_map toLowerCase_char name).

Record Category := mkCategory {
  cat_name : string;
  cat_slug : option string
}.

(** Create slug from name: [nameModified] is [this.isModified("name")]. *)
Definition category_pre_save (nameModified : bool) (c : Category) : Category :=
  if nameModified then mkCategory (cat_name c) (Some (slugify (cat_name c)))
  else c.

(** ** Vocabulary of the specification *)

(** The quantity an order asks of a product: the sum over the order lines
    that name it. *)
Fixpoint orderedQuantity (productId : ObjectId) (items : list OrderItem) : Z :=
  match items with
  | [] => 0
  | item :: rest =>
      (if decide (oi_product item = productId) then oi_quantity item else 0)
      + orderedQuantity productId rest
  end.

(** A product with [n] units put back, when its quantity is tracked. *)
Definition restocked (n : Z) (p : Product) : Product :=
  if p_trackQuantity p then set_quantity p (p_quantity p + n) else p.

(** The sum of a quantity over the lines of a cart, written independently
    of the reducers of the cart hook. *)
Definition sumOf {A} (f : A → Q) (l : list A) : Q :=
  foldr (fun x acc => (f x + acc)%Q) 0%Q l.

Definition countOf {A} (f : A → Z) (l : list A) : Z :=
  foldr (fun x acc => f x + acc) 0 l.

(** A line's total is its quantity times its unit price. *)
Definition line_ok (i : CartItem) : Prop :=
  ci_totalPrice i = (inject_Z (ci_quantity i) * ci_price i)%Q.

(** The derived totals of a cart agree with its lines. *)
Definition cart_inv (c : Cart) : Prop :=
  (cart_totalAmount c == sumOf ci_totalPrice (cart_items c))%Q
  ∧ cart_totalItems c = countOf ci_quantity (cart_items c)
  ∧ Forall line_ok (cart_items c).

Definition carts_inv (s : Store) : Prop :=
  ∀ owner c, carts s !! owner = Some c → cart_inv c.

(** The operations that can write a cart: the six cart endpoints and order
    placement, which empties the cart. *)
Inductive CartOp :=
  | OpGet
  | OpAdd (req : CartRequest)
  | OpUpdate (req : CartRequest)
  | OpRemove (productId : ObjectId)
  | OpClear
  | OpSync (valid : bool) (items : list SyncItem)
  | OpPlaceOrder (req : OrderRequest).

Definition cart_step (e : Env) (u : User) (op : CartOp) (s : Store) : Store :=
  match op with
  | OpGet => fst (getCart e u s)
  | OpAdd req => fst (addToCart e u req s)
  | OpUpdate req => fst (updateCartItem e u req s)
  | OpRemove productId => fst (removeFromCart e u productId s)
  | OpClear => fst (clearCart e u s)
  | OpSync valid items => fst (syncCart e u valid items s)
  | OpPlaceOrder req => fst (createOrder e u req s)
  end.

(** The quantity a cart asks of a product: the sum over the cart lines that
    name it. *)
Fixpoint cartQuantity (productId : ObjectId) (items : list CartItem) : Z :=
  match items with
  | [] => 0
  | item :: rest =>
      (if decide (ci_product item = productId) then ci_quantity item else 0)
      + cartQuantity productId rest
  end.

(** The price of a cart line: the current price of its product times the
    quantity of the line. *)
Definition lineTotal (ps : gmap N Product) (item : CartItem) : Q :=
  match ps !! ci_product item with
  | Some p => (p_price p * inject_Z (ci_quantity item))%Q
  | None => 0%Q
  end.

(** A cart line that placement accepts: its product exists, is active, and,
    when its quantity is tracked, holds at least the quantity of the line. *)
Definition lineAvailable (ps : gmap N Product) (item : CartItem) : Prop :=
  ∃ p, ps !! ci_product item = Some p ∧ p_isActive p = true
       ∧ (p_trackQuantity p = true → ci_quantity item ≤ p_quantity p).

(** A cart line that asks for more than the tracked stock of its product. *)
Definition lineShort (ps : gmap N Product) (item : CartItem) : Prop :=
  ∃ p, ps !! ci_product item = Some p ∧ p_trackQuantity p = true
       ∧ p_quantity p < ci_quantity item.

(** A cart line whose product exists and is active. *)
Definition lineListed (ps : gmap N Product) (item : CartItem) : Prop :=
  ∃ p, ps !! ci_product item = Some p ∧ p_isActive p = true.

(** The order a payment-success event leaves in the store. *)
Definition paidOrder (e : Env) (txn : string) (order : Order) : Order :=
  pre_save_order e false (o_status order) (markPaid e txn order).

(** [written cs cs']: every cart of [cs'] is a cart of [cs] or satisfies the
    invariant. *)
Definition written (cs cs' : gmap N Cart) : Prop :=
  ∀ owner c, cs' !! owner = Some c → cs !! owner = Some c ∨ cart_inv c.

(** What may change in a stored order: [evolves o o'] says that [o'] has
    the owner, lines, address, payment method, prices, notes and (once set)
    order number of [o], that its history extends the history of [o], and
    that the paid and delivered marks of [o] are still set, with the same
    delivery date. *)
Definition evolves (o o' : Order) : Prop :=
  o_user o' = o_user o
  ∧ o_items o' = o_items o
  ∧ o_shippingAddress o' = o_shippingAddress o
  ∧ pay_method (o_paymentInfo o') = pay_method (o_paymentInfo o)
  ∧ o_itemsPrice o' = o_itemsPrice o
  ∧ o_taxPrice o' = o_taxPrice o
  ∧ o_shippingPrice o' = o_shippingPrice o
  ∧ o_totalPrice o' = o_totalPrice o
  ∧ o_notes o' = o_notes o
  ∧ (is_Some (o_orderNumber o) → o_orderNumber o' = o_orderNumber o)
  ∧ o_statusHistory o `prefix_of` o_statusHistory o'
  ∧ (o_isPaid o = true → o_isPaid o' = true)
  ∧ (o_isDelivered o = true →
     o_isDelivered o' = true ∧ o_deliveredAt o' = o_deliveredAt o).

(** The operations that can write an order. *)
Inductive OrderOp :=
  | OpCreate (u : User) (req : OrderRequest)
  | OpStatus (id : OrderId) (req : StatusUpdate)
  | OpCancel (u : User) (id : OrderId)
  | OpConfirm (u : User) (id : OrderId) (paymentIntentId : string)
      (retrieved : option IntentStatus)
  | OpWebhook (signed : bool) (ev : Event).

Definition order_step (e : Env) (op : OrderOp) (s : Store) : Store :=
  match op with
  | OpCreate u req => fst (createOrder e u req s)
  | OpStatus id req => fst (updateOrderStatus e id req s)
  | OpCancel u id => fst (cancelOrder e u id s)
  | OpConfirm u id paymentIntentId retrieved =>
      fst (confirmPayment e u id paymentIntentId retrieved s)
  | OpWebhook signed ev => fst (stripeWebhook e signed ev s)
  end.

(** A sequence of order operations, each at its own time. *)
Definition order_run (trace : list (Env * OrderOp)) (s : Store) : Store :=
  fold_left (fun st step => order_step (fst step) (snd step) st) trace s.

(** The lines an account has in its cart, none when it has no cart. *)
Definition linesOf (s : Store) (owner : ObjectId) : list CartItem :=
  match carts s !! owner with
  | Some c => cart_items c
  | None => []
  end.

(** [rewrites os os']: the order collection [os'] is [os], or [os] with one
    order replaced by an order it evolves into, or [os] with one more
    order at the end. *)
Definition rewrites (os os' : list Order) : Prop :=
  os' = os
  ∨ (∃ id order order', os !! id = Some order ∧ evolves order order'
                        ∧ os' = <[id := order']> os)
  ∨ (∃ order, os' = os ++ [order]).

(** The characters of a slug: lower-case letters, digits and the hyphen. *)
Definition slugChar (c : ascii) : bool :=
  inRange 97 122 c || inRange 48 57 c || Ascii.eqb c "-".

(** What [slugify] does to one character. *)
Definition slugStep (c : ascii) : ascii :=
  if isAlnum (toLowerCase_char c) then toLowerCase_char c else "-"%char.

(** The orders on the pages 1 to [k] of the order list, one after the
    other. *)
Definition pagesUpTo (u : User) (limit : option N) (status : option string)
    (s : Store) (k : nat) : list Order :=
  flat_map
    (fun p => page_data (getOrders u (Some (N.of_nat p)) limit status s))
    (seq 1 k).

(** The quantity a single line asks of a product. *)
Definition lineQuantity (productId : ObjectId) (item : CartItem) : Z :=
  if decide (ci_product item = productId) then ci_quantity item else 0.

(** ** Sample data

    The cart of the placement example of the specification, and orders in
    several states, used to run the handlers on concrete inputs. *)

Definition sampleAddress : Address :=
  mkAddress "Ada" "1 Main St" "Springfield" "CA" "90000" "USA" "5550100".

Definition productA : Product :=
  mkProduct "productA" 10%Q 2%Q (Some "a.png"%string) true true 5.
Definition productB : Product :=
  mkProduct "productB" 5%Q 1%Q None true true 3.

Definition sampleCart : Cart :=
  mkCart [mkCartItem 1%N 2 10%Q 20%Q; mkCartItem 2%N 1 5%Q 5%Q] 3 25%Q 0.

Definition alice : User := mkUser 7%N customer.
Definition bob : User := mkUser 8%N customer.
Definition root : User := mkUser 9%N admin.

Definition sampleStore : Store :=
  mkStore (<[1%N := productA]> (<[2%N := productB]> ∅))
    (<[7%N := sampleCart]> ∅) [].

Definition sampleRequest : OrderRequest :=
  mkOrderRequest true sampleAddress stripe None.

Definition sampleItems : list OrderItem :=
  [mkOrderItem 1%N "productA" "a.png" 10%Q 2 20%Q;
   mkOrderItem 2%N "productB" "/placeholder.svg" 5%Q 1 5%Q].

Definition orderIn (st : Status) (paid : PaymentInfo) (isPaid isDelivered : bool)
    (deliveredAt : option Date) (history : list HistoryEntry) : Order :=
  mkOrder (Some (mkOrderNumber 123456 42)) 7%N sampleItems sampleAddress paid
    25%Q 2%Q 10%Q 37%Q st isPaid isDelivered deliveredAt None None None history.

Definition unpaid : PaymentInfo := mkPaymentInfo stripe None None.

Definition pendingOrder : Order := orderIn pending unpaid false false None [].

Definition shippedOrder : Order :=
  orderIn shipped unpaid false false None
    [mkHistoryEntry shipped 300 None].

Definition deliveredOrder : Order :=
  orderIn delivered (mkPaymentInfo stripe (Some "pi_1"%string) (Some 400))
    true true (Some 500)
    [mkHistoryEntry confirmed 400 None; mkHistoryEntry delivered 500 None].

Definition confirmedPaidOrder : Order :=
  orderIn confirmed (mkPaymentInfo stripe (Some "pi_1"%string) (Some 1000))
    true false None [mkHistoryEntry confirmed 1000 None].

Definition storeWith (o : Order) : Store :=
  mkStore (<[1%N := set_quantity productA 3]> (<[2%N := set_quantity productB 2]> ∅))
    ∅ [o].

Definition atTime (now : Date) : Env := mkEnv now 7.

Definition heavyProduct : Product :=
  mkProduct "brisket" 10%Q 20%Q None true true 9.

(** A cart of two briskets: 40 units of weight for 20 of price. *)
Definition heavyStore : Store :=
  mkStore (<[1%N := heavyProduct]> ∅)
    (<[7%N := mkCart [mkCartItem 1%N 2 10%Q 20%Q] 2 20%Q 0]> ∅) [].

(** A cart whose lines come to exactly 100. *)
Definition hundredStore : Store :=
  mkStore (<[1%N := mkProduct "roast" 50%Q 1%Q None true true 9]> ∅)
    (<[7%N := mkCart [mkCartItem 1%N 2 50%Q 100%Q] 2 100%Q 0]> ∅) [].

(** The carts of [heavyStore] and [hundredStore] as [calculateShipping]
    reads them: weight, quantity and total price of each line. *)
Definition heavyLines : list ShippingItem := [mkShippingItem 20 2 20].
Definition hundredLines : list ShippingItem := [mkShippingItem 1 2 100].

(** A cart whose first line names a product that was deactivated and whose
    second line asks for more than is in stock. *)
Definition staleStore : Store :=
  mkStore (<[1%N := mkProduct "retired" 10%Q 1%Q None false true 0]>
             (<[2%N := set_quantity productB 0]> ∅))
    (<[7%N := sampleCart]> ∅) [].

(** A cart that asks for four units of a product that has three. *)
Definition shortStore : Store :=
  mkStore (<[1%N := productA]> (<[2%N := productB]> ∅))
    (<[7%N := mkCart [mkCartItem 1%N 2 10%Q 20%Q; mkCartItem 2%N 4 5%Q 20%Q]
                6 40%Q 0]> ∅) [].

(** A trace of order operations on order 0. *)
Definition sampleTrace : list (Env * OrderOp) :=
  [(atTime 600, OpWebhook true
                  (payment_intent_succeeded (mkPaymentIntent "pi_1" 0%nat)));
   (atTime 700, OpStatus 0%nat
                  (mkStatusUpdate true delivered (Some "left at door"%string)
                     None None));
   (atTime 800, OpCancel root 0%nat);
   (atTime 900, OpStatus 0%nat (mkStatusUpdate true refunded None None None))].

(** Three orders of the same account, oldest first. *)
Definition threeOrders : Store :=
  mkStore ∅ ∅ [deliveredOrder; shippedOrder; pendingOrder].

Definition accountsOf (email : string) : gmap N Account :=
  <[7%N := mkAccount email customer true]>
    (<[9%N := mkAccount "root@shop.test" admin true]> ∅).

(** * Properties *)

(** ** Saving an order *)

Section SaveOrder.
Context (e : Env) (id : OrderId) (loaded : Status) (o : Order) (s : Store).

Lemma save_order_products : products (fst (save_order e id loaded o s)) = products s.
Proof. reflexivity. Qed.

Lemma save_order_carts : carts (fst (save_order e id loaded o s)) = carts s.
Proof. reflexivity. Qed.

Lemma save_order_lookup :
  is_Some (orders s !! id) →
  orders (fst (save_order e id loaded o s)) !! id
  = Some (pre_save_order e false loaded o).
Proof.
  intros Hid. simpl. apply list_lookup_insert_eq.
  by apply lookup_lt_is_Some.
Qed.

Lemma save_order_lookup_ne (j : OrderId) :
  j ≠ id → orders (fst (save_order e id loaded o s)) !! j = orders s !! j.
Proof. intros Hne. simpl. by apply list_lookup_insert_ne. Qed.
End SaveOrder.

(** The hooks leave the payment fields, the paid flag and the status
    alone. *)
Lemma pre_save_order_status e isNew loaded o :
  o_status (pre_save_order e isNew loaded o) = o_status o.
Proof.
  unfold pre_save_order, hook_delivered, hook_statusHistory, hook_orderNumber.
  repeat (case_match; simpl); reflexivity.
Qed.

Lemma pre_save_order_isPaid e isNew loaded o :
  o_isPaid (pre_save_order e isNew loaded o) = o_isPaid o.
Proof.
  unfold pre_save_order, hook_delivered, hook_statusHistory, hook_orderNumber.
  repeat (case_match; simpl); reflexivity.
Qed.

Lemma pre_save_order_paymentInfo e isNew loaded o :
  o_paymentInfo (pre_save_order e isNew loaded o) = o_paymentInfo o.
Proof.
  unfold pre_save_order, hook_delivered, hook_statusHistory, hook_orderNumber.
  repeat (case_match; simpl); reflexivity.
Qed.

Lemma pre_save_order_items e isNew loaded o :
  o_items (pre_save_order e isNew loaded o) = o_items o.
Proof.
  unfold pre_save_order, hook_delivered, hook_statusHistory, hook_orderNumber.
  repeat (case_match; simpl); reflexivity.
Qed.

Lemma pre_save_order_prices e isNew loaded o :
  let o' := pre_save_order e isNew loaded o in
  o_itemsPrice o' = o_itemsPrice o ∧ o_taxPrice o' = o_taxPrice o ∧
  o_shippingPrice o' = o_shippingPrice o ∧ o_totalPrice o' = o_totalPrice o.
Proof.
  unfold pre_save_order, hook_delivered, hook_statusHistory, hook_orderNumber.
  repeat (case_match; simpl); auto.
Qed.

(** What the status-history hook appends: one entry when the status was
    changed on a stored order, nothing otherwise. *)
Lemma pre_save_order_history e isNew loaded o :
  o_statusHistory (pre_save_order e isNew loaded o)
  = if isModified_status loaded o && negb isNew
    then push (o_statusHistory o) (mkHistoryEntry (o_status o) (env_now e) None)
    else o_statusHistory o.
Proof.
  unfold pre_save_order, hook_delivered, hook_statusHistory, hook_orderNumber.
  destruct (o_orderNumber o); simpl;
    destruct (isModified_status loaded _ && negb isNew) eqn:Hm; simpl;
    unfold isModified_status in *; simpl in *; rewrite ?Hm;
    repeat (case_match; simpl); try reflexivity; congruence.
Qed.

(** What the delivery hook does to the delivery fields. *)
Lemma pre_save_order_delivered e isNew loaded o :
  let o' := pre_save_order e isNew loaded o in
  (o_isDelivered o', o_deliveredAt o')
  = if bool_decide (o_status o = delivered) && negb (o_isDelivered o)
    then (true, Some (env_now e))
    else (o_isDelivered o, o_deliveredAt o).
Proof.
  unfold pre_save_order, hook_delivered, hook_statusHistory, hook_orderNumber.
  repeat (case_match; simpl in * ); try reflexivity; congruence.
Qed.

(** ** Payment reconciliation *)

Lemma markPaid_fields e txn order :
  let o := markPaid e txn order in
  o_status o = confirmed ∧ o_isPaid o = true ∧
  o_paymentInfo o
  = mkPaymentInfo (pay_method (o_paymentInfo order)) (Some txn) (Some (env_now e)) ∧
  o_statusHistory o = o_statusHistory order ∧
  o_isDelivered o = o_isDelivered order ∧
  o_deliveredAt o = o_deliveredAt order ∧
  o_items o = o_items order.
Proof. by repeat split. Qed.

Lemma handlePaymentSuccess_lookup e paymentIntent s order :
  orders s !! intent_orderId paymentIntent = Some order →
  orders (handlePaymentSuccess e paymentIntent s) !! intent_orderId paymentIntent
  = Some (paidOrder e (intent_id paymentIntent) order).
Proof.
  intros Hfind. unfold handlePaymentSuccess. rewrite Hfind.
  apply save_order_lookup. by rewrite Hfind.
Qed.

Lemma confirmPayment_succeeded e u id txn s order :
  orders s !! id = Some order →
  o_user order = u_id u →
  ∃ s', confirmPayment e u id txn (Some succeeded) s
        = (s', Success 200 (paidOrder e txn order))
        ∧ orders s' !! id = Some (paidOrder e txn order).
Proof.
  intros Hfind Howner. unfold confirmPayment. rewrite Hfind.
  rewrite bool_decide_eq_false_2 by (intros Hne; by apply Hne).
  eexists. split; [reflexivity |].
  simpl. apply list_lookup_insert_eq. by eapply lookup_lt_Some.
Qed.

Lemma paidOrder_fields e txn order :
  let o := paidOrder e txn order in
  o_status o = confirmed ∧ o_isPaid o = true ∧
  pay_transactionId (o_paymentInfo o) = Some txn ∧
  pay_paidAt (o_paymentInfo o) = Some (env_now e).
Proof.
  unfold paidOrder. simpl.
  rewrite pre_save_order_status, pre_save_order_isPaid, pre_save_order_paymentInfo.
  by repeat split.
Qed.

(** C10: whatever the status of the order, both payment-success paths (the
    webhook's [payment_intent.succeeded] event and the client confirmation
    of an intent the gateway reports as succeeded) set the status to
    confirmed, set isPaid, and overwrite transactionId and paidAt. *)
Theorem payment_success_overwrites e s id order txn :
  orders s !! id = Some order →
  (∃ o', orders (fst (stripeWebhook e true
                        (payment_intent_succeeded (mkPaymentIntent txn id)) s)) !! id
         = Some o'
         ∧ o_status o' = confirmed ∧ o_isPaid o' = true
         ∧ pay_transactionId (o_paymentInfo o') = Some txn
         ∧ pay_paidAt (o_paymentInfo o') = Some (env_now e))
  ∧ (∀ u, o_user order = u_id u →
     ∃ s' o', confirmPayment e u id txn (Some succeeded) s = (s', Success 200 o')
         ∧ orders s' !! id = Some o'
         ∧ o_status o' = confirmed ∧ o_isPaid o' = true
         ∧ pay_transactionId (o_paymentInfo o') = Some txn
         ∧ pay_paidAt (o_paymentInfo o') = Some (env_now e)).
Proof.
  intros Hfind. split.
  - exists (paidOrder e txn order). split.
    + simpl. by apply (handlePaymentSuccess_lookup e (mkPaymentIntent txn id)).
    + apply paidOrder_fields.
  - intros u Howner.
    destruct (confirmPayment_succeeded e u id txn s order Hfind Howner)
      as (s' & Hrun & Hlook).
    exists s', (paidOrder e txn order). split; [done |]. split; [done |].
    apply paidOrder_fields.
Qed.

Lemma payment_success_overwrites_witness :
  ∃ o', orders (fst (stripeWebhook (atTime 2000) true
                       (payment_intent_succeeded (mkPaymentIntent "pi_2" 0%nat))
                       (storeWith deliveredOrder))) !! 0%nat = Some o'
        ∧ o_status o' = confirmed.
Proof.
  destruct (payment_success_overwrites (atTime 2000) (storeWith deliveredOrder)
              0%nat deliveredOrder "pi_2" eq_refl) as [(o' & Hlook & Hst & _) _].
  exists o'. split; assumption.
Defined.

(** C3, as the code has it: a second [payment_intent.succeeded] event for
    an order that is already confirmed and paid under the same intent
    leaves isPaid, the status, transactionId and the status history as
    they are and touches no product and no cart, but stamps paidAt with
    the time of the second processing. *)
Theorem webhook_replay e paymentIntent s order :
  orders s !! intent_orderId paymentIntent = Some order →
  o_status order = confirmed →
  o_isPaid order = true →
  pay_transactionId (o_paymentInfo order) = Some (intent_id paymentIntent) →
  let s' := fst (stripeWebhook e true (payment_intent_succeeded paymentIntent) s) in
  ∃ o', orders s' !! intent_orderId paymentIntent = Some o'
        ∧ o_isPaid o' = true
        ∧ o_status o' = confirmed
        ∧ pay_transactionId (o_paymentInfo o')
          = pay_transactionId (o_paymentInfo order)
        ∧ o_statusHistory o' = o_statusHistory order
        ∧ pay_paidAt (o_paymentInfo o') = Some (env_now e)
        ∧ products s' = products s ∧ carts s' = carts s.
Proof.
  intros Hfind Hst Hpaid Htxn s'.
  exists (paidOrder e (intent_id paymentIntent) order).
  split; [by apply handlePaymentSuccess_lookup |].
  destruct (paidOrder_fields e (intent_id paymentIntent) order)
    as (H1 & H2 & H3 & H4).
  repeat split; try done.
  - by rewrite H3, Htxn.
  - unfold paidOrder. rewrite pre_save_order_history.
    unfold isModified_status. simpl. rewrite Hst.
    by rewrite bool_decide_eq_false_2 by (intros Hne; by apply Hne).
  - subst s'. simpl. unfold handlePaymentSuccess. by rewrite Hfind.
  - subst s'. simpl. unfold handlePaymentSuccess. by rewrite Hfind.
Qed.

Lemma webhook_replay_witness :
  ∃ o', orders (fst (stripeWebhook (atTime 2000) true
                       (payment_intent_succeeded (mkPaymentIntent "pi_1" 0%nat))
                       (storeWith confirmedPaidOrder))) !! 0%nat = Some o'
        ∧ o_statusHistory o' = o_statusHistory confirmedPaidOrder
        ∧ pay_paidAt (o_paymentInfo o') = Some 2000.
Proof.
  destruct (webhook_replay (atTime 2000) (mkPaymentIntent "pi_1" 0%nat)
              (storeWith confirmedPaidOrder) confirmedPaidOrder
              eq_refl eq_refl eq_refl eq_refl)
    as (o' & Hlook & _ & _ & _ & Hhist & Hat & _).
  exists o'. repeat split; assumption.
Defined.

(** C3 as stated fails: the same event processed at time 1000 and again at
    time 2000 leaves the order confirmed and paid after the first
    processing, and the second processing changes paidAt. *)
Lemma webhook_replay_changes_paidAt :
  let ev := payment_intent_succeeded (mkPaymentIntent "pi_1" 0%nat) in
  let s1 := fst (stripeWebhook (atTime 1000) true ev (storeWith pendingOrder)) in
  let s2 := fst (stripeWebhook (atTime 2000) true ev s1) in
  (o_status <$> orders s1 !! 0%nat) = Some confirmed
  ∧ (o_isPaid <$> orders s1 !! 0%nat) = Some true
  ∧ (pay_paidAt ∘ o_paymentInfo <$> orders s1 !! 0%nat) = Some (Some 1000)
  ∧ (pay_paidAt ∘ o_paymentInfo <$> orders s2 !! 0%nat) = Some (Some 2000)
  ∧ (pay_paidAt ∘ o_paymentInfo <$> orders s2 !! 0%nat)
    ≠ (pay_paidAt ∘ o_paymentInfo <$> orders s1 !! 0%nat).
Proof. vm_compute. repeat split; congruence. Qed.

(** ** Order lifecycle *)

(** What an accepted status update leaves in the store: the new status,
    the history entries it appends (the controller's, when a note comes
    with it, and the hook's, when the status changed), and the delivery
    fields. *)
Lemma updateOrderStatus_result e id req s order :
  su_valid req = true →
  orders s !! id = Some order →
  ∃ s' o', updateOrderStatus e id req s = (s', Success 200 o')
    ∧ orders s' !! id = Some o'
    ∧ products s' = products s ∧ carts s' = carts s
    ∧ o_status o' = su_status req
    ∧ o_statusHistory o'
      = o_statusHistory order
        ++ (if truthy (su_note req)
            then [mkHistoryEntry (su_status req) (env_now e) (su_note req)]
            else [])
        ++ (if bool_decide (su_status req ≠ o_status order)
            then [mkHistoryEntry (su_status req) (env_now e) None]
            else [])
    ∧ (o_isDelivered o', o_deliveredAt o')
      = if bool_decide (su_status req = delivered) && negb (o_isDelivered order)
        then (true, Some (env_now e))
        else (o_isDelivered order, o_deliveredAt order).
Proof.
  intros Hvalid Hfind. unfold updateOrderStatus. rewrite Hvalid, Hfind. simpl.
  eexists _, _. split; [reflexivity |].
  split; [simpl; apply list_lookup_insert_eq; by eapply lookup_lt_Some |].
  split; [reflexivity |]. split; [reflexivity |].
  rewrite pre_save_order_status, pre_save_order_history.
  rewrite (pre_save_order_delivered e false (o_status order)).
  unfold isModified_status, push.
  destruct (truthy (su_note req)), (truthy (su_trackingNumber req)),
    (su_estimatedDelivery req); simpl;
    destruct (bool_decide (su_status req ≠ o_status order)); simpl;
    rewrite ?app_nil_r, <- ?app_assoc; done.
Qed.

(** C7: an accepted transition to delivered leaves the order delivered with
    isDelivered set; an order that was not yet delivered is stamped with
    the current time; an order that was already delivered keeps its
    deliveredAt; and deliveredAt is non-null afterwards whenever it was
    non-null for an order already marked delivered. *)
Theorem delivered_transition e id req s order :
  su_valid req = true →
  su_status req = delivered →
  orders s !! id = Some order →
  ∃ s' o', updateOrderStatus e id req s = (s', Success 200 o')
    ∧ orders s' !! id = Some o'
    ∧ o_status o' = delivered
    ∧ o_isDelivered o' = true
    ∧ (o_isDelivered order = false → o_deliveredAt o' = Some (env_now e))
    ∧ (o_isDelivered order = true → o_deliveredAt o' = o_deliveredAt order)
    ∧ ((o_isDelivered order = true → is_Some (o_deliveredAt order)) →
       is_Some (o_deliveredAt o')).
Proof.
  intros Hvalid Hst Hfind.
  destruct (updateOrderStatus_result e id req s order Hvalid Hfind)
    as (s' & o' & Hrun & Hlook & _ & _ & Hst' & _ & Hdel).
  exists s', o'. split; [done |]. split; [done |].
  rewrite Hst in *. rewrite bool_decide_eq_true_2 in Hdel by done.
  split; [done |].
  destruct (o_isDelivered order) eqn:Hwas; simpl in Hdel;
    apply pair_equal_spec in Hdel as [Hflag Hat]; (split; [done |]).
  - split; [done |]. split; [done |]. intros Hinv. rewrite Hat. by apply Hinv.
  - split; [done |]. split; [done |]. intros _. by eexists.
Qed.

Lemma delivered_transition_witness :
  ∃ s1 o1 s2 o2,
    updateOrderStatus (atTime 600) 0%nat (mkStatusUpdate true delivered None None None)
      (storeWith shippedOrder) = (s1, Success 200 o1)
    ∧ o_isDelivered o1 = true ∧ o_deliveredAt o1 = Some 600
    ∧ updateOrderStatus (atTime 700) 0%nat (mkStatusUpdate true delivered None None None)
        s1 = (s2, Success 200 o2)
    ∧ o_isDelivered o2 = true ∧ o_deliveredAt o2 = Some 600.
Proof.
  destruct (delivered_transition (atTime 600) 0%nat
              (mkStatusUpdate true delivered None None None)
              (storeWith shippedOrder) shippedOrder eq_refl eq_refl eq_refl)
    as (s1 & o1 & Hrun1 & Hlook1 & _ & Hd1 & Hat1 & _).
  destruct (delivered_transition (atTime 700) 0%nat
              (mkStatusUpdate true delivered None None None)
              s1 o1 eq_refl eq_refl Hlook1)
    as (s2 & o2 & Hrun2 & _ & _ & Hd2 & _ & Hat2 & _).
  exists s1, o1, s2, o2.
  specialize (Hat1 eq_refl). specialize (Hat2 Hd1).
  repeat split; try assumption. by rewrite Hat2.
Defined.

(** The delivery hook keeps "marked delivered implies stamped" true of every
    order it saves. *)
Lemma pre_save_order_delivered_inv e isNew loaded o :
  (o_isDelivered o = true → is_Some (o_deliveredAt o)) →
  let o' := pre_save_order e isNew loaded o in
  o_isDelivered o' = true → is_Some (o_deliveredAt o').
Proof.
  intros Hinv o' Hd. subst o'.
  pose proof (pre_save_order_delivered e isNew loaded o) as Hdel. simpl in Hdel.
  destruct (bool_decide (o_status o = delivered) && negb (o_isDelivered o));
    apply pair_equal_spec in Hdel as [Hflag Hat].
  - by eexists.
  - rewrite Hat. apply Hinv. by rewrite <- Hflag.
Qed.

(** ** Cancellation *)

Lemma set_quantity_same p : set_quantity p (p_quantity p) = p.
Proof. by destruct p. Qed.

Lemma restocked_0 p : restocked 0 p = p.
Proof.
  unfold restocked. destruct (p_trackQuantity p); [| done].
  rewrite Z.add_0_r. apply set_quantity_same.
Qed.

Lemma restocked_restocked n m p :
  restocked m (restocked n p) = restocked (n + m) p.
Proof.
  unfold restocked. destruct (p_trackQuantity p) eqn:Htrack; simpl.
  - rewrite Htrack. unfold set_quantity. simpl. f_equal. lia.
  - by rewrite Htrack.
Qed.

Lemma restoreLine_lookup ps item productId :
  restoreLine ps item !! productId
  = restocked (if decide (oi_product item = productId) then oi_quantity item else 0)
    <$> ps !! productId.
Proof.
  unfold restoreLine. destruct (decide (oi_product item = productId)) as [-> | Hne].
  - destruct (ps !! productId) as [p |] eqn:Hp; simpl.
    + unfold restocked. destruct (p_trackQuantity p).
      * by rewrite lookup_insert_eq.
      * by rewrite Hp.
    + by rewrite Hp.
  - assert (Hid : ∀ m : gmap ObjectId Product,
               m !! productId = restocked 0 <$> m !! productId).
    { intros m. destruct (m !! productId) as [p |]; simpl; [| done].
      by rewrite restocked_0. }
    destruct (ps !! oi_product item) as [p |]; [| apply Hid].
    destruct (p_trackQuantity p); [| apply Hid].
    rewrite lookup_insert_ne by done. apply Hid.
Qed.

(** After the restoring loop every product holds what it held before plus
    what the order asked of it, when it is tracked; products the order
    does not name, untracked products and products that no longer exist
    are as before. *)
Lemma restoreInventory_lookup items ps productId :
  restoreInventory items ps !! productId
  = restocked (orderedQuantity productId items) <$> ps !! productId.
Proof.
  unfold restoreInventory. revert ps.
  induction items as [| item rest IH]; intros ps; simpl.
  - destruct (ps !! productId) as [p |]; simpl; [| done]. by rewrite restocked_0.
  - rewrite IH, restoreLine_lookup.
    destruct (ps !! productId) as [p |]; simpl; [| done].
    by rewrite restocked_restocked.
Qed.

Lemma canCancel_spec st : canCancel st = true ↔ st = pending ∨ st = confirmed.
Proof. destruct st; vm_compute; intuition congruence. Qed.

(** A cancellation that passes the checks: the store it leaves and the two
    history entries it appends, the controller's with the note and the
    hook's for the change of status. *)
Lemma cancelOrder_success e u id s order :
  orders s !! id = Some order →
  o_user order = u_id u ∨ u_role u = admin →
  canCancel (o_status order) = true →
  ∃ o', cancelOrder e u id s
        = (mkStore (restoreInventory (o_items order) (products s)) (carts s)
             (<[id := o']> (orders s)), Success 200 o')
    ∧ o_status o' = cancelled
    ∧ o_statusHistory o'
      = o_statusHistory order
        ++ [mkHistoryEntry cancelled (env_now e) (Some (cancelNote u));
            mkHistoryEntry cancelled (env_now e) None].
Proof.
  intros Hfind Hauth Hcan. unfold cancelOrder. rewrite Hfind.
  assert (bool_decide (o_user order ≠ u_id u) && bool_decide (u_role u ≠ admin)
          = false) as ->.
  { apply andb_false_iff. destruct Hauth as [Ho | Ha].
    - left. by apply bool_decide_eq_false_2; intros Hne.
    - right. by apply bool_decide_eq_false_2; intros Hne. }
  rewrite Hcan. simpl. eexists. split; [reflexivity |].
  rewrite pre_save_order_status, pre_save_order_history. simpl.
  split; [done |].
  unfold isModified_status. simpl.
  rewrite bool_decide_eq_true_2.
  - simpl. unfold push. by rewrite <- app_assoc.
  - apply canCancel_spec in Hcan as [-> | ->]; done.
Qed.

(** C5: for a caller who owns the order or is an administrator,
    cancellation succeeds exactly when the order is pending or confirmed;
    otherwise it fails with the invalid-transition error and the store is
    as before; on success the order is cancelled and every product that
    exists and tracks its quantity holds what it held plus the quantity
    the order's lines ask of it. *)
Theorem cancelOrder_spec e u id s order :
  orders s !! id = Some order →
  o_user order = u_id u ∨ u_role u = admin →
  ((o_status order = pending ∨ o_status order = confirmed)
   ↔ ∃ s' o', cancelOrder e u id s = (s', Success 200 o'))
  ∧ (¬ (o_status order = pending ∨ o_status order = confirmed) →
     cancelOrder e u id s = (s, Failure 400 CannotCancel))
  ∧ (o_status order = pending ∨ o_status order = confirmed →
     ∃ s' o', cancelOrder e u id s = (s', Success 200 o')
       ∧ orders s' !! id = Some o'
       ∧ o_status o' = cancelled
       ∧ ∀ productId,
           products s' !! productId
           = restocked (orderedQuantity productId (o_items order))
             <$> products s !! productId).
Proof.
  intros Hfind Hauth.
  assert (Hfail : ¬ (o_status order = pending ∨ o_status order = confirmed) →
                  cancelOrder e u id s = (s, Failure 400 CannotCancel)).
  { intros Hno. unfold cancelOrder. rewrite Hfind.
    assert (bool_decide (o_user order ≠ u_id u) && bool_decide (u_role u ≠ admin)
            = false) as ->.
    { apply andb_false_iff. destruct Hauth as [Ho | Ha].
      - left. by apply bool_decide_eq_false_2; intros Hne.
      - right. by apply bool_decide_eq_false_2; intros Hne. }
    destruct (canCancel (o_status order)) eqn:Hcan; [| done].
    by apply canCancel_spec in Hcan. }
  assert (Hok : o_status order = pending ∨ o_status order = confirmed →
     ∃ s' o', cancelOrder e u id s = (s', Success 200 o')
       ∧ orders s' !! id = Some o'
       ∧ o_status o' = cancelled
       ∧ ∀ productId,
           products s' !! productId
           = restocked (orderedQuantity productId (o_items order))
             <$> products s !! productId).
  { intros Hcan. apply canCancel_spec in Hcan.
    destruct (cancelOrder_success e u id s order Hfind Hauth Hcan)
      as (o' & Hrun & Hst & _).
    eexists _, o'. split; [exact Hrun |]. simpl.
    split; [apply list_lookup_insert_eq; by eapply lookup_lt_Some |].
    split; [done |]. intros productId. apply restoreInventory_lookup. }
  split; [| split; assumption].
  split.
  - intros Hcan. destruct (Hok Hcan) as (s' & o' & Hrun & _). by exists s', o'.
  - intros (s' & o' & Hrun).
    destruct (decide (o_status order = pending)) as [| Hn1]; [by left |].
    destruct (decide (o_status order = confirmed)) as [| Hn2]; [by right |].
    rewrite Hfail in Hrun by (intros [? | ?]; done). discriminate.
Qed.

Lemma cancelOrder_spec_witness :
  (∃ s' o', cancelOrder (atTime 900) alice 0%nat (storeWith pendingOrder)
            = (s', Success 200 o')
     ∧ o_status o' = cancelled
     ∧ p_quantity <$> products s' !! 1%N = Some 5
     ∧ p_quantity <$> products s' !! 2%N = Some 3)
  ∧ cancelOrder (atTime 900) root 0%nat (storeWith shippedOrder)
    = (storeWith shippedOrder, Failure 400 CannotCancel).
Proof.
  destruct (cancelOrder_spec (atTime 900) alice 0%nat (storeWith pendingOrder)
              pendingOrder eq_refl (or_introl eq_refl))
    as (_ & _ & Hok).
  destruct (cancelOrder_spec (atTime 900) root 0%nat (storeWith shippedOrder)
              shippedOrder eq_refl (or_intror eq_refl))
    as (_ & Hfail & _).
  split.
  - destruct (Hok (or_introl eq_refl)) as (s' & o' & Hrun & _ & Hst & Hstock).
    exists s', o'. split; [exact Hrun |]. split; [exact Hst |].
    rewrite (Hstock 1%N), (Hstock 2%N). split; reflexivity.
  - apply Hfail. intros [Hp | Hc]; discriminate.
Defined.

(** C2 fails on the code: a cancellation appends two history entries, the
    one [cancelOrder] pushes with its note and the one the status hook
    pushes when the order is saved; an administrator's status update that
    comes with a note and changes the status appends two as well.  A
    payment confirmation, which pushes no entry of its own, appends one. *)
Theorem status_history_double_entry :
  (∃ s' o', cancelOrder (atTime 900) alice 0%nat (storeWith pendingOrder)
            = (s', Success 200 o')
     ∧ o_statusHistory o'
       = [mkHistoryEntry cancelled 900 (Some "Cancelled by customer"%string);
          mkHistoryEntry cancelled 900 None])
  ∧ (∃ s' o', updateOrderStatus (atTime 900) 0%nat
                (mkStatusUpdate true processing (Some "packed"%string) None None)
                (storeWith pendingOrder)
              = (s', Success 200 o')
     ∧ o_statusHistory o'
       = [mkHistoryEntry processing 900 (Some "packed"%string);
          mkHistoryEntry processing 900 None])
  ∧ o_statusHistory <$> orders (handlePaymentSuccess (atTime 900)
                                  (mkPaymentIntent "pi_1" 0%nat)
                                  (storeWith pendingOrder)) !! 0%nat
    = Some [mkHistoryEntry confirmed 900 None].
Proof.
  split; [| split].
  - eexists _, _. split; [vm_compute; reflexivity | reflexivity].
  - eexists _, _. split; [vm_compute; reflexivity | reflexivity].
  - vm_compute. reflexivity.
Qed.

(** ** Cart totals *)

Lemma fold_total_sumOf {A} (f : A → Q) (l : list A) (a : Q) :
  (fold_left (fun total x => total + f x) l a == a + sumOf f l)%Q.
Proof.
  revert a. induction l as [| x l IH]; intros a; simpl.
  - ring.
  - rewrite IH. ring.
Qed.

Lemma fold_count_countOf {A} (f : A → Z) (l : list A) (a : Z) :
  fold_left (fun total x => total + f x) l a = a + countOf f l.
Proof.
  revert a. induction l as [| x l IH]; intros a; simpl.
  - lia.
  - rewrite IH. lia.
Qed.

Lemma sumTotalPrice_sumOf items :
  (sumTotalPrice items == sumOf ci_totalPrice items)%Q.
Proof. unfold sumTotalPrice. rewrite fold_total_sumOf. ring. Qed.

Lemma sumQuantity_countOf items : sumQuantity items = countOf ci_quantity items.
Proof. unfold sumQuantity. rewrite fold_count_countOf. lia. Qed.

Lemma item_pre_save_ok i : line_ok (item_pre_save i).
Proof. reflexivity. Qed.

Lemma item_pre_save_id i : line_ok i → item_pre_save i = i.
Proof. unfold line_ok, item_pre_save. destruct i; simpl. by intros ->. Qed.

Lemma map_item_pre_save_id items :
  Forall line_ok items → map item_pre_save items = items.
Proof.
  induction 1 as [| i items Hi _ IH]; simpl; [done |].
  by rewrite item_pre_save_id, IH.
Qed.

(** Every cart that [save] writes satisfies the invariant. *)
Lemma save_cart_inv e owner c s : cart_inv (snd (save_cart e owner c s)).
Proof.
  unfold save_cart, cart_inv. simpl. split; [| split].
  - apply sumTotalPrice_sumOf.
  - apply sumQuantity_countOf.
  - apply Forall_forall. intros i Hi. apply list_elem_of_In in Hi.
    apply in_map_iff in Hi as (j & <- & _). apply item_pre_save_ok.
Qed.

Lemma written_refl cs : written cs cs.
Proof. intros owner c Hc. by left. Qed.

Lemma written_trans cs1 cs2 cs3 :
  written cs1 cs2 → written cs2 cs3 → written cs1 cs3.
Proof.
  intros H12 H23 owner c Hc. destruct (H23 owner c Hc) as [Hc2 | Hinv].
  - by apply H12.
  - by right.
Qed.

Lemma save_cart_written e owner c s s' c' :
  save_cart e owner c s = (s', c') → written (carts s) (carts s').
Proof.
  intros Hsave owner' c'' Hc.
  pose proof (save_cart_inv e owner c s) as Hinv. rewrite Hsave in Hinv.
  unfold save_cart in Hsave. inversion Hsave as [[Hs' Hc']]. subst s'.
  simpl in Hc. destruct (decide (owner = owner')) as [-> | Hne].
  - rewrite lookup_insert_eq in Hc. inversion Hc. subst. by right.
  - rewrite lookup_insert_ne in Hc by done. by left.
Qed.

Lemma findOrCreateCart_written e owner s s' c :
  findOrCreateCart e owner s = (s', c) → written (carts s) (carts s').
Proof.
  unfold findOrCreateCart, Cart_create. destruct (carts s !! owner).
  - intros [= <- _]. apply written_refl.
  - apply save_cart_written.
Qed.

Lemma written_inv s s' :
  written (carts s) (carts s') → carts_inv s → carts_inv s'.
Proof.
  intros Hw Hinv owner c Hc. destruct (Hw owner c Hc) as [Hc' | Hok]; [| done].
  by apply (Hinv owner).
Qed.

Create HintDb carts.
#[local] Hint Resolve written_refl written_trans : carts.

(** Name the result of every cart write in the goal and record that it is a
    write. *)
Ltac name_writes :=
  repeat match goal with
  | |- context [save_cart ?e ?o ?c ?s] =>
      let H := fresh "Hsave" in
      destruct (save_cart e o c s) as [? ?] eqn:H;
      apply save_cart_written in H; simpl in H
  | |- context [findOrCreateCart ?e ?o ?s] =>
      let H := fresh "Hfind" in
      destruct (findOrCreateCart e o s) as [? ?] eqn:H;
      apply findOrCreateCart_written in H
  | |- context [syncItems ?ps ?items ?acc ?errs] =>
      destruct (syncItems ps items acc errs) as [? ?]
  | |- context [match ?x with _ => _ end] => destruct x
  end.

Lemma getCart_written e u s : written (carts s) (carts (fst (getCart e u s))).
Proof. unfold getCart. name_writes; simpl; eauto with carts. Qed.

Lemma addToCart_written e u req s :
  written (carts s) (carts (fst (addToCart e u req s))).
Proof. unfold addToCart. name_writes; simpl; eauto with carts. Qed.

Lemma updateCartItem_written e u req s :
  written (carts s) (carts (fst (updateCartItem e u req s))).
Proof. unfold updateCartItem. name_writes; simpl; eauto with carts. Qed.

Lemma removeFromCart_written e u productId s :
  written (carts s) (carts (fst (removeFromCart e u productId s))).
Proof. unfold removeFromCart. name_writes; simpl; eauto with carts. Qed.

Lemma clearCart_written e u s : written (carts s) (carts (fst (clearCart e u s))).
Proof. unfold clearCart. name_writes; simpl; eauto with carts. Qed.

Lemma syncCart_written e u valid items s :
  written (carts s) (carts (fst (syncCart e u valid items s))).
Proof. unfold syncCart. name_writes; simpl; eauto with carts. Qed.

(** The document [createOrder] builds has no order number, so
    [Order.create] refuses it. *)
Lemma buildOrder_unnumbered u req s cart doc :
  buildOrder u req s = inr (cart, doc) → o_orderNumber doc = None.
Proof.
  unfold buildOrder. intros H.
  destruct (negb (or_valid req)); [discriminate |].
  destruct (carts s !! u_id u) as [c |]; [| discriminate].
  destruct (length (cart_items c) =? 0)%nat; [discriminate |].
  destruct (validateItems _ _ _ _) as [err | [orderItems itemsPrice]];
    [discriminate |].
  injection H as _ <-. reflexivity.
Qed.

Lemma createOrder_answer e u req s :
  createOrder e u req s
  = match buildOrder u req s with
    | inl err => (s, Failure 400 err)
    | inr _ => (s, Failure 500 ServerError)
    end.
Proof.
  unfold createOrder.
  destruct (buildOrder u req s) as [err | [cart doc]] eqn:Hbuild;
    [reflexivity |].
  apply buildOrder_unnumbered in Hbuild.
  unfold Order_create, validate_order. rewrite Hbuild. reflexivity.
Qed.

Lemma createOrder_store e u req s : fst (createOrder e u req s) = s.
Proof. rewrite createOrder_answer. by destruct (buildOrder u req s). Qed.

Lemma createOrder_written e u req s :
  written (carts s) (carts (fst (createOrder e u req s))).
Proof. rewrite createOrder_store. apply written_refl. Qed.

Lemma cart_step_written e u op s :
  written (carts s) (carts (cart_step e u op s)).
Proof.
  destruct op; simpl.
  - apply getCart_written.
  - apply addToCart_written.
  - apply updateCartItem_written.
  - apply removeFromCart_written.
  - apply clearCart_written.
  - apply syncCart_written.
  - apply createOrder_written.
Qed.

(** C6: every cart operation (get with pruning, add, update, remove, clear,
    sync, and the clearing of the cart by order placement) leaves every
    stored cart with totalAmount equal to the sum of its lines' totalPrice,
    totalItems equal to the sum of its lines' quantities, and each line's
    totalPrice equal to its quantity times its unit price. *)
Theorem cart_totals_invariant e u op s :
  carts_inv s → carts_inv (cart_step e u op s).
Proof. apply written_inv, cart_step_written. Qed.

Lemma sampleStore_carts_inv : carts_inv sampleStore.
Proof.
  intros owner c Hc. unfold sampleStore in Hc. simpl in Hc.
  apply lookup_insert_Some in Hc as [[_ <-] | [_ Hc]].
  - split; [reflexivity | split; [reflexivity |]].
    repeat constructor.
  - by rewrite lookup_empty in Hc.
Qed.

Lemma cart_totals_invariant_witness :
  carts_inv sampleStore
  ∧ carts_inv (cart_step (atTime 100) alice (OpAdd (mkCartRequest true 2%N 1))
                 sampleStore).
Proof.
  split; [exact sampleStore_carts_inv |].
  apply (cart_totals_invariant (atTime 100) alice (OpAdd (mkCartRequest true 2%N 1))
           sampleStore).
  intros owner c Hc. unfold sampleStore in Hc. simpl in Hc.
  apply lookup_insert_Some in Hc as [[_ <-] | [_ Hc]].
  - split; [reflexivity | split; [reflexivity |]].
    repeat constructor.
  - by rewrite lookup_empty in Hc.
Defined.

(** Starting from a store without carts, every sequence of cart operations
    by any accounts leaves all carts consistent. *)
Lemma cart_totals_reachable (trace : list (Env * User * CartOp)) s :
  carts s = ∅ →
  carts_inv (fold_left (fun st '(e, u, op) => cart_step e u op st) trace s).
Proof.
  intros Hempty.
  assert (Hinv : carts_inv s).
  { intros owner c Hc. by rewrite Hempty, lookup_empty in Hc. }
  clear Hempty. revert s Hinv.
  induction trace as [| [[e u] op] trace IH]; intros s Hinv; simpl; [done |].
  apply IH. by eapply written_inv; [apply cart_step_written |].
Qed.

(** ** Removing a line from the cart *)

Lemma filter_keep_all {A} (f : A → bool) (l : list A) :
  Forall (fun x => f x = true) l → List.filter f l = l.
Proof.
  induction 1 as [| x l Hx _ IH]; simpl; [done |]. by rewrite Hx, IH.
Qed.

(** C9, as the code has it: when the account has a cart document, removing
    a product that is on none of its lines succeeds and leaves the lines
    and the totals as they are (the save only refreshes lastModified); when
    the account has no cart document the call fails with "Cart not found"
    and the store is as before. *)
Theorem removeFromCart_absent e u productId s :
  (∀ cart,
     carts s !! u_id u = Some cart →
     cart_inv cart →
     productId ∉ map ci_product (cart_items cart) →
     ∃ cart', removeFromCart e u productId s
              = (set_carts s (<[u_id u := cart']> (carts s)), Success 200 cart')
       ∧ cart_items cart' = cart_items cart
       ∧ cart_totalItems cart' = cart_totalItems cart
       ∧ (cart_totalAmount cart' == cart_totalAmount cart)%Q
       ∧ cart_lastModified cart' = env_now e)
  ∧ (carts s !! u_id u = None →
     removeFromCart e u productId s = (s, Failure 404 CartNotFound)).
Proof.
  split.
  - intros cart Hcart (Hamount & Hitems & Hlines) Habsent.
    unfold removeFromCart. rewrite Hcart.
    rewrite filter_keep_all.
    + eexists. split; [reflexivity |]. simpl.
      rewrite map_item_pre_save_id by done.
      split; [done |]. split; [by rewrite sumQuantity_countOf |].
      split; [by rewrite sumTotalPrice_sumOf, Hamount | done].
    + apply Forall_forall. intros item Hin. apply bool_decide_eq_true_2.
      intros Heq. apply Habsent. rewrite <- Heq.
      apply list_elem_of_In, in_map, list_elem_of_In, Hin.
  - intros Hnone. unfold removeFromCart. by rewrite Hnone.
Qed.

Lemma removeFromCart_absent_witness :
  (∃ cart', fst (removeFromCart (atTime 100) alice 3%N sampleStore)
            = set_carts sampleStore (<[7%N := cart']> (carts sampleStore))
     ∧ cart_items cart' = cart_items sampleCart)
  ∧ removeFromCart (atTime 100) bob 3%N sampleStore
    = (sampleStore, Failure 404 CartNotFound).
Proof.
  destruct (removeFromCart_absent (atTime 100) alice 3%N sampleStore) as [Hsome _].
  destruct (removeFromCart_absent (atTime 100) bob 3%N sampleStore) as [_ Hnone].
  split.
  - destruct (Hsome sampleCart eq_refl) as (cart' & Hrun & Hitems & _).
    + split; [reflexivity | split; [reflexivity |]]. repeat constructor.
    + vm_compute. intros Hin. repeat (inversion Hin as [| ? ? ? Hin']; clear Hin;
                                      rename Hin' into Hin).
    + exists cart'. split; [by rewrite Hrun | exact Hitems].
  - apply Hnone. reflexivity.
Defined.

(** C9 as stated fails: an account that has no cart document cannot remove
    a product; the call answers 404 "Cart not found". *)
Lemma removeFromCart_without_cart :
  carts sampleStore !! u_id bob = None
  ∧ removeFromCart (atTime 100) bob 1%N sampleStore
    = (sampleStore, Failure 404 CartNotFound)
  ∧ ¬ ∃ s' cart', removeFromCart (atTime 100) bob 1%N sampleStore
                  = (s', Success 200 cart').
Proof.
  split; [reflexivity |]. split; [reflexivity |].
  intros (s' & cart' & Hrun). vm_compute in Hrun. discriminate.
Qed.

(** ** Order placement *)

Lemma populate_lookup ps items productId :
  productId ∈ map ci_product items →
  populate ps items !! productId = ps !! productId.
Proof.
  intros Hin. unfold populate. destruct (ps !! productId) as [p |] eqn:Hp.
  - by apply map_lookup_filter_Some_2.
  - apply map_lookup_filter_None_2. by left.
Qed.

Lemma populate_lookup_item ps items item :
  item ∈ items → populate ps items !! ci_product item = ps !! ci_product item.
Proof.
  intros Hin. apply populate_lookup.
  apply list_elem_of_In, in_map, list_elem_of_In, Hin.
Qed.

Lemma outOfStock_true p n :
  outOfStock p n = true ↔ p_trackQuantity p = true ∧ p_quantity p < n.
Proof.
  unfold outOfStock. rewrite andb_true_iff, Z.ltb_lt. reflexivity.
Qed.

Lemma outOfStock_false p n :
  outOfStock p n = false ↔ (p_trackQuantity p = true → n ≤ p_quantity p).
Proof.
  unfold outOfStock. destruct (p_trackQuantity p); simpl.
  - rewrite Z.ltb_ge. intuition.
  - intuition congruence.
Qed.

(** The validation loop rejects a cart that has a short line, with the
    error of the first line that fails a check. *)
Lemma validateItems_short docs items orderItems itemsPrice :
  (∃ item, item ∈ items ∧ lineShort docs item) →
  ∃ err, validateItems docs items orderItems itemsPrice = inl err
    ∧ ((∃ name, err = ProductUnavailable name)
       ∨ (∃ n name, err = InsufficientStock n name))
    ∧ ((∀ item, item ∈ items → lineListed docs item) →
       ∃ n name, err = InsufficientStock n name).
Proof.
  revert orderItems itemsPrice.
  induction items as [| cartItem rest IH]; intros orderItems itemsPrice
    (item & Hin & Hshort).
  - by apply elem_of_nil in Hin.
  - simpl. destruct (docs !! ci_product cartItem) as [product |] eqn:Hdoc.
    + destruct (p_isActive product) eqn:Hactive; simpl.
      * destruct (outOfStock product (ci_quantity cartItem)) eqn:Hout.
        -- eexists. split; [reflexivity |]. split; [right |]; eauto.
        -- apply elem_of_cons in Hin as [-> | Hin].
           ++ destruct Hshort as (p & Hp & Htrack & Hlt).
              rewrite Hdoc in Hp. inversion Hp. subst p.
              apply outOfStock_false in Hout; [lia | done].
           ++ destruct (IH (push orderItems (orderItemOf product cartItem))
                          (itemsPrice + oi_totalPrice (orderItemOf product cartItem))%Q)
                as (err & Hrun & Hkind & Hlisted); [by exists item |].
              exists err. split; [done |]. split; [done |].
              intros Hall. apply Hlisted. intros i Hi. apply Hall.
              by apply elem_of_cons; right.
      * eexists. split; [reflexivity |]. split; [left; eauto |].
        intros Hall. destruct (Hall cartItem) as (p & Hp & Hact).
        { by apply elem_of_cons; left. }
        rewrite Hdoc in Hp. inversion Hp. congruence.
    + eexists. split; [reflexivity |]. split; [left; eauto |].
      intros Hall. destruct (Hall cartItem) as (p & Hp & Hact).
      { by apply elem_of_cons; left. }
      rewrite Hdoc in Hp. discriminate.
Qed.

Lemma lineShort_populate ps items item :
  item ∈ items → lineShort ps item → lineShort (populate ps items) item.
Proof.
  intros Hin (p & Hp & H). exists p. by rewrite populate_lookup_item.
Qed.

Lemma lineListed_populate ps items item :
  item ∈ items → lineListed ps item → lineListed (populate ps items) item.
Proof.
  intros Hin (p & Hp & H). exists p. by rewrite populate_lookup_item.
Qed.

(** C1, as the code has it: when a line of the cart asks for more than the
    tracked stock of its product, placement fails with status 400 and the
    store (orders, products and carts) is as before.  The error is the one
    of the first check that fails: it is the insufficient-stock error when
    the request passes validation and every line names an existing, active
    product, and otherwise it may be the validation error or the
    product-unavailable error. *)
Theorem createOrder_short_stock e u req s cart :
  carts s !! u_id u = Some cart →
  (∃ item, item ∈ cart_items cart ∧ lineShort (products s) item) →
  ∃ err, createOrder e u req s = (s, Failure 400 err)
    ∧ (err = ValidationFailed
       ∨ (∃ name, err = ProductUnavailable name)
       ∨ (∃ n name, err = InsufficientStock n name))
    ∧ (or_valid req = true →
       (∀ item, item ∈ cart_items cart → lineListed (products s) item) →
       ∃ n name, err = InsufficientStock n name).
Proof.
  intros Hcart (item & Hin & Hshort).
  rewrite createOrder_answer. unfold buildOrder.
  destruct (or_valid req) eqn:Hvalid; simpl.
  - rewrite Hcart.
    destruct (cart_items cart) as [| first rest] eqn:Hitems;
      [by apply elem_of_nil in Hin |].
    rewrite <- Hitems in *. replace (length (cart_items cart) =? 0)%nat with false
      by (by rewrite Hitems).
    destruct (validateItems_short (populate (products s) (cart_items cart))
                (cart_items cart) [] 0%Q) as (err & Hrun & Hkind & Hlisted).
    { exists item. split; [done |]. by apply lineShort_populate. }
    rewrite Hrun. exists err. split; [done |]. split; [by right |].
    intros _ Hall. apply Hlisted. intros i Hi.
    apply lineListed_populate; [done |]. by apply Hall.
  - exists ValidationFailed. split; [done |]. split; [by left | done].
Qed.

Lemma createOrder_short_stock_witness :
  ∃ err, createOrder (atTime 100) alice sampleRequest shortStore
         = (shortStore, Failure 400 err)
    ∧ ∃ n name, err = InsufficientStock n name.
Proof.
  destruct (createOrder_short_stock (atTime 100) alice sampleRequest shortStore
              (mkCart [mkCartItem 1%N 2 10%Q 20%Q; mkCartItem 2%N 4 5%Q 20%Q]
                 6 40%Q 0) eq_refl)
    as (err & Hrun & _ & Hkind).
  - exists (mkCartItem 2%N 4 5%Q 20%Q). split.
    + simpl. apply elem_of_cons. right. apply elem_of_cons. by left.
    + exists productB. split; [reflexivity |]. split; [reflexivity |].
      simpl. lia.
  - exists err. split; [exact Hrun |]. apply Hkind; [reflexivity |].
    intros item Hin. simpl in Hin.
    apply elem_of_cons in Hin as [-> | Hin].
    + exists productA. split; reflexivity.
    + apply elem_of_cons in Hin as [-> | Hin].
      * exists productB. split; reflexivity.
      * by apply elem_of_nil in Hin.
Defined.

(** C1 as stated fails: the cart has a line that asks for more than the
    tracked stock of its product, yet placement answers with the
    product-unavailable error of the deactivated product on the first line,
    not with an insufficient-stock error. *)
Lemma createOrder_short_stock_other_error :
  (∃ item, item ∈ cart_items sampleCart ∧ lineShort (products staleStore) item)
  ∧ carts staleStore !! u_id alice = Some sampleCart
  ∧ createOrder (atTime 100) alice sampleRequest staleStore
    = (staleStore, Failure 400 (ProductUnavailable (Some "retired"%string)))
  ∧ ¬ ∃ s' n name, createOrder (atTime 100) alice sampleRequest staleStore
                   = (s', Failure 400 (InsufficientStock n name)).
Proof.
  split; [| split; [reflexivity | split; [reflexivity |]]].
  - exists (mkCartItem 2%N 1 5%Q 5%Q). split.
    + simpl. apply elem_of_cons. right. apply elem_of_cons. by left.
    + exists (set_quantity productB 0). split; [reflexivity |].
      split; [reflexivity |]. simpl. lia.
  - intros (s' & n & name & Hrun). vm_compute in Hrun. discriminate.
Qed.

(** The validation loop accepts a cart all of whose lines are available, and
    adds up the prices of the lines. *)
Lemma validateItems_available docs items orderItems itemsPrice :
  (∀ item, item ∈ items → lineAvailable docs item) →
  ∃ orderItems',
    validateItems docs items orderItems itemsPrice
    = inr (orderItems',
           fold_left (fun total item => (total + lineTotal docs item)%Q)
             items itemsPrice).
Proof.
  revert orderItems itemsPrice.
  induction items as [| cartItem rest IH]; intros orderItems itemsPrice Hall;
    simpl.
  - by eexists.
  - destruct (Hall cartItem) as (p & Hp & Hactive & Hstock).
    { by apply elem_of_cons; left. }
    rewrite Hp, Hactive. simpl.
    apply outOfStock_false in Hstock. rewrite Hstock.
    unfold lineTotal at 2. rewrite Hp.
    apply IH. intros item Hin. apply Hall. by apply elem_of_cons; right.
Qed.

(** The checks of placement accept a valid request on a non-empty cart all
    of whose lines are available; the document they build is pending and
    unpaid, and its itemsPrice adds up the current prices of the lines. *)
Lemma buildOrder_available u req s cart :
  or_valid req = true →
  carts s !! u_id u = Some cart →
  cart_items cart ≠ [] →
  (∀ item, item ∈ cart_items cart → lineAvailable (products s) item) →
  ∃ doc,
    buildOrder u req s = inr (cart, doc)
    ∧ o_user doc = u_id u
    ∧ o_status doc = pending ∧ o_isPaid doc = false
    ∧ (o_itemsPrice doc == sumOf (lineTotal (products s)) (cart_items cart))%Q.
Proof.
  intros Hvalid Hcart Hitems Hall. unfold buildOrder.
  rewrite Hvalid, Hcart. simpl.
  replace (length (cart_items cart) =? 0)%nat with false
    by (destruct (cart_items cart); done).
  set (docs := populate (products s) (cart_items cart)).
  destruct (validateItems_available docs (cart_items cart) [] 0%Q)
    as (orderItems & Hrun).
  { intros item Hin. destruct (Hall item Hin) as (p & Hp & H).
    exists p. split; [| done]. subst docs. by rewrite populate_lookup_item. }
  rewrite Hrun. eexists. split; [reflexivity |]. simpl.
  repeat (split; [reflexivity |]).
  rewrite fold_total_sumOf, Qplus_0_l.
  clear Hrun. subst docs.
  assert (Hsame : ∀ items' : list CartItem,
            (∀ item, item ∈ items' → item ∈ cart_items cart) →
            sumOf (lineTotal (populate (products s) (cart_items cart))) items'
            = sumOf (lineTotal (products s)) items').
  { induction items' as [| i items' IH]; intros Hsub; simpl; [done |].
    rewrite IH by (intros j Hj; apply Hsub; by apply elem_of_cons; right).
    unfold lineTotal at 1 3. rewrite populate_lookup_item; [done |].
    apply Hsub. by apply elem_of_cons; left. }
  by rewrite Hsame.
Qed.

(** C4 fails on the code.  For a request that passes validation and a
    non-empty cart all of whose lines name an existing, active product that
    holds at least the quantity of the line when its quantity is tracked,
    [createOrder] builds the order the claim describes (pending, unpaid,
    itemsPrice the sum over the lines of product price times quantity), but
    the document has no order number when [Order.create] validates it: the
    handler answers 500 and the store is as before, with no order stored,
    no stock taken and the cart as it was. *)
Theorem createOrder_server_error e u req s cart :
  or_valid req = true →
  carts s !! u_id u = Some cart →
  cart_items cart ≠ [] →
  (∀ item, item ∈ cart_items cart → lineAvailable (products s) item) →
  (∃ doc, buildOrder u req s = inr (cart, doc)
          ∧ o_status doc = pending ∧ o_isPaid doc = false
          ∧ (o_itemsPrice doc
             == sumOf (lineTotal (products s)) (cart_items cart))%Q
          ∧ Order_create e doc s = None)
  ∧ createOrder e u req s = (s, Failure 500 ServerError).
Proof.
  intros Hvalid Hcart Hitems Hall.
  destruct (buildOrder_available u req s cart Hvalid Hcart Hitems Hall)
    as (doc & Hbuild & _ & Hstatus & Hpaid & Hprice).
  split.
  - exists doc. repeat (split; [done |]).
    unfold Order_create, validate_order.
    by rewrite (buildOrder_unnumbered _ _ _ _ _ Hbuild).
  - by rewrite createOrder_answer, Hbuild.
Qed.

(** The placement example of the specification: a cart of two units of
    productA at 10 and one unit of productB at 5, with 5 and 3 in stock. *)
Lemma createOrder_server_error_witness :
  createOrder (atTime 100) alice sampleRequest sampleStore
  = (sampleStore, Failure 500 ServerError)
  ∧ orders sampleStore = []
  ∧ (cart_items <$> carts sampleStore !! 7%N)
    = Some [mkCartItem 1%N 2 10%Q 20%Q; mkCartItem 2%N 1 5%Q 5%Q]
  ∧ (p_quantity <$> products sampleStore !! 1%N) = Some 5
  ∧ (p_quantity <$> products sampleStore !! 2%N) = Some 3.
Proof.
  split; [| repeat split].
  apply (createOrder_server_error (atTime 100) alice sampleRequest sampleStore
           sampleCart eq_refl eq_refl).
  - discriminate.
  - intros item Hin. simpl in Hin.
    apply elem_of_cons in Hin as [-> | Hin].
    + exists productA. split; [reflexivity |]. split; [reflexivity |].
      simpl. lia.
    + apply elem_of_cons in Hin as [-> | Hin].
      * exists productB. split; [reflexivity |]. split; [reflexivity |].
        simpl. lia.
      * by apply elem_of_nil in Hin.
Defined.

(** ** Shipping price *)

Lemma shippingPriceOf_spec itemsPrice :
  ((100 < itemsPrice)%Q → shippingPriceOf itemsPrice = 0%Q)
  ∧ ((itemsPrice <= 100)%Q → shippingPriceOf itemsPrice = 10%Q).
Proof.
  unfold shippingPriceOf, Qlt_bool.
  destruct (Qle_bool itemsPrice 100) eqn:Hle; simpl.
  - apply Qle_bool_iff in Hle. split; [| done].
    intros Hlt. exfalso. by apply (Qlt_not_le _ _ Hlt).
  - split; [done |]. intros Hle'. apply Qle_bool_iff in Hle'. congruence.
Qed.

(** C8, as the code has it: the shippingPrice of the order document that
    placement builds for [Order.create] is a function of the itemsPrice of
    that document alone, 0 when itemsPrice is strictly above 100 and the
    flat fee 10 otherwise; weight plays no part and there is neither a
    surcharge nor a cap. *)
Theorem createOrder_shipping_flat u req s cart doc :
  buildOrder u req s = inr (cart, doc) →
  o_shippingPrice doc = shippingPriceOf (o_itemsPrice doc)
  ∧ ((100 < o_itemsPrice doc)%Q → o_shippingPrice doc = 0%Q)
  ∧ ((o_itemsPrice doc <= 100)%Q → o_shippingPrice doc = 10%Q).
Proof.
  intros Hbuild.
  assert (Hflat : o_shippingPrice doc = shippingPriceOf (o_itemsPrice doc)).
  { unfold buildOrder in Hbuild.
    destruct (negb (or_valid req)); [discriminate |].
    destruct (carts s !! u_id u) as [c |]; [| discriminate].
    destruct (length (cart_items c) =? 0)%nat; [discriminate |].
    destruct (validateItems _ _ _ _) as [err | [orderItems itemsPrice]];
      [discriminate |].
    injection Hbuild as _ <-. reflexivity. }
  split; [done |]. rewrite Hflat. apply shippingPriceOf_spec.
Qed.

Lemma createOrder_shipping_flat_witness :
  ∃ cart doc,
    buildOrder alice sampleRequest heavyStore = inr (cart, doc)
    ∧ o_shippingPrice doc = 10%Q.
Proof.
  destruct (buildOrder alice sampleRequest heavyStore) as [err | [cart doc]]
    eqn:Hbuild; [vm_compute in Hbuild; discriminate |].
  exists cart, doc. split; [reflexivity |].
  destruct (createOrder_shipping_flat alice sampleRequest heavyStore cart doc
              Hbuild) as (_ & _ & Hflat).
  apply Hflat. vm_compute in Hbuild. injection Hbuild as _ <-.
  vm_compute. discriminate.
Defined.

(** C8 as stated fails.  For a cart of 40 units of weight and 20 of price,
    the weight-tiered policy of [calculateShipping] gives 40 and the order
    document of placement carries 10; for a cart of exactly 100 the policy
    gives free shipping and the order document carries 10. *)
Lemma createOrder_shipping_ignores_weight :
  (∃ cart doc,
     buildOrder alice sampleRequest heavyStore = inr (cart, doc)
     ∧ (o_itemsPrice doc == 20)%Q
     ∧ (o_shippingPrice doc == 10)%Q
     ∧ calculateShipping heavyLines = 40%float)
  ∧ (∃ cart doc,
     buildOrder alice sampleRequest hundredStore = inr (cart, doc)
     ∧ (o_itemsPrice doc == 100)%Q
     ∧ (o_shippingPrice doc == 10)%Q
     ∧ calculateShipping hundredLines = 0%float).
Proof.
  split.
  - eexists _, _. split; [vm_compute; reflexivity |].
    split; [reflexivity |]. split; [reflexivity |].
    vm_compute. reflexivity.
  - eexists _, _. split; [vm_compute; reflexivity |].
    split; [reflexivity |]. split; [reflexivity |].
    vm_compute. reflexivity.
Qed.

(** * Further properties of the handlers *)

(** ** What an order keeps *)

Lemma evolves_refl o : evolves o o.
Proof. unfold evolves. repeat split; try done. Qed.

Lemma evolves_trans o1 o2 o3 : evolves o1 o2 → evolves o2 o3 → evolves o1 o3.
Proof.
  unfold evolves.
  intros (A1 & A2 & A3 & A4 & A5 & A6 & A7 & A8 & A9 & A10 & A11 & A12 & A13)
         (B1 & B2 & B3 & B4 & B5 & B6 & B7 & B8 & B9 & B10 & B11 & B12 & B13).
  do 9 (split; [congruence |]).
  split; [intros Hn; rewrite B10, A10; [done | done |]; by rewrite A10 |].
  split; [by etrans |].
  split; [auto |].
  intros Hd. destruct (A13 Hd) as [Hd2 Hat]. destruct (B13 Hd2) as [Hd3 Hat'].
  split; congruence.
Qed.

Lemma pre_save_order_frame e isNew loaded o :
  let o' := pre_save_order e isNew loaded o in
  o_user o' = o_user o ∧ o_shippingAddress o' = o_shippingAddress o
  ∧ o_notes o' = o_notes o
  ∧ (is_Some (o_orderNumber o) → o_orderNumber o' = o_orderNumber o).
Proof.
  unfold pre_save_order, hook_delivered, hook_statusHistory, hook_orderNumber.
  destruct (o_orderNumber o) eqn:Hn; repeat (case_match; simpl);
    repeat split; try done; intros [? ?]; congruence.
Qed.

Lemma pre_save_order_evolves e loaded o :
  evolves o (pre_save_order e false loaded o).
Proof.
  destruct (pre_save_order_frame e false loaded o) as (F1 & F2 & F3 & F4).
  destruct (pre_save_order_prices e false loaded o) as (P1 & P2 & P3 & P4).
  pose proof (pre_save_order_delivered e false loaded o) as Hdel.
  simpl in Hdel.
  unfold evolves.
  rewrite pre_save_order_items, pre_save_order_paymentInfo,
    pre_save_order_isPaid, pre_save_order_history.
  do 10 (split; [done |]).
  split.
  { destruct (isModified_status loaded o && negb false);
      [by apply prefix_app_r | done]. }
  split; [done |].
  intros Hd. rewrite Hd, andb_false_r in Hdel.
  by apply pair_equal_spec in Hdel.
Qed.

Lemma rewrites_lookup os os' id o :
  rewrites os os' → os !! id = Some o →
  ∃ o', os' !! id = Some o' ∧ evolves o o'.
Proof.
  intros [-> | [(j & oj & o'' & Hj & Hev & ->) | (new & ->)]] Hid.
  - exists o. split; [done | apply evolves_refl].
  - destruct (decide (j = id)) as [-> | Hne].
    + exists o''. split.
      * apply list_lookup_insert_eq. by eapply lookup_lt_Some.
      * congruence.
    + exists o. split; [by rewrite list_lookup_insert_ne | apply evolves_refl].
  - exists o. split; [by apply lookup_app_l_Some | apply evolves_refl].
Qed.

Lemma markPaid_evolves e txn o : evolves o (markPaid e txn o).
Proof. unfold evolves. simpl. repeat split; try done. Qed.

Lemma updateOrderStatus_rewrites e id req s :
  rewrites (orders s) (orders (fst (updateOrderStatus e id req s))).
Proof.
  unfold updateOrderStatus.
  destruct (su_valid req); simpl; [| by left].
  destruct (orders s !! id) as [order |] eqn:Hfind; [| by left].
  right; left. eexists id, order, _. split; [done |]. split; [| reflexivity].
  eapply evolves_trans; [| apply pre_save_order_evolves].
  unfold evolves, push.
  destruct (truthy (su_note req)), (truthy (su_trackingNumber req)),
    (su_estimatedDelivery req); simpl; repeat split; try done;
    by apply prefix_app_r.
Qed.

Lemma cancelOrder_rewrites e u id s :
  rewrites (orders s) (orders (fst (cancelOrder e u id s))).
Proof.
  unfold cancelOrder.
  destruct (orders s !! id) as [order |] eqn:Hfind; [| by left].
  destruct (_ && _); [by left |].
  destruct (negb _); [by left |].
  right; left. eexists id, order, _. split; [done |]. split; [| reflexivity].
  eapply evolves_trans; [| apply pre_save_order_evolves].
  unfold evolves, push. simpl. repeat split; try done. by apply prefix_app_r.
Qed.

Lemma confirmPayment_rewrites e u id txn retrieved s :
  rewrites (orders s) (orders (fst (confirmPayment e u id txn retrieved s))).
Proof.
  unfold confirmPayment.
  destruct (orders s !! id) as [order |] eqn:Hfind; [| by left].
  destruct (bool_decide _); [by left |].
  destruct retrieved as [[] |]; try by left.
  right; left. eexists id, order, _. split; [done |]. split; [| reflexivity].
  eapply evolves_trans; [apply markPaid_evolves | apply pre_save_order_evolves].
Qed.

Lemma stripeWebhook_rewrites e signed ev s :
  rewrites (orders s) (orders (fst (stripeWebhook e signed ev s))).
Proof.
  unfold stripeWebhook, handlePaymentSuccess, handlePaymentFailure.
  destruct signed; simpl; [| by left].
  destruct ev as [paymentIntent | | |]; simpl; try by left.
  destruct (orders s !! intent_orderId paymentIntent) as [order |] eqn:Hfind;
    [| by left].
  right; left. eexists _, order, _. split; [done |]. split; [| reflexivity].
  eapply evolves_trans; [apply markPaid_evolves | apply pre_save_order_evolves].
Qed.

Lemma createOrder_rewrites e u req s :
  rewrites (orders s) (orders (fst (createOrder e u req s))).
Proof. rewrite createOrder_store. by left. Qed.

Lemma order_step_rewrites e op s :
  rewrites (orders s) (orders (order_step e op s)).
Proof.
  destruct op; simpl.
  - apply createOrder_rewrites.
  - apply updateOrderStatus_rewrites.
  - apply cancelOrder_rewrites.
  - apply confirmPayment_rewrites.
  - apply stripeWebhook_rewrites.
Qed.

(** Along any sequence of order operations an order stays where it is in
    the collection and evolves. *)
Lemma order_run_lookup trace s id o :
  orders s !! id = Some o →
  ∃ o', orders (order_run trace s) !! id = Some o' ∧ evolves o o'.
Proof.
  revert s o. induction trace as [| [e op] trace IH]; intros s o Hid; simpl.
  - exists o. split; [done | apply evolves_refl].
  - destruct (rewrites_lookup _ _ id o (order_step_rewrites e op s) Hid)
      as (o1 & Hid1 & Hev1).
    destruct (IH _ o1 Hid1) as (o' & Hid' & Hev').
    exists o'. split; [done |]. by eapply evolves_trans.
Qed.

(** X1: whatever sequence of order operations runs (placements, status
    updates, cancellations, payment confirmations, webhook events), an
    order stays at its id and keeps its owner, its lines, its shipping
    address, its payment method, its four prices and its notes. *)
Theorem order_snapshot_immutable trace s id o :
  orders s !! id = Some o →
  ∃ o', orders (order_run trace s) !! id = Some o'
    ∧ o_user o' = o_user o
    ∧ o_items o' = o_items o
    ∧ o_shippingAddress o' = o_shippingAddress o
    ∧ pay_method (o_paymentInfo o') = pay_method (o_paymentInfo o)
    ∧ o_itemsPrice o' = o_itemsPrice o ∧ o_taxPrice o' = o_taxPrice o
    ∧ o_shippingPrice o' = o_shippingPrice o ∧ o_totalPrice o' = o_totalPrice o
    ∧ o_notes o' = o_notes o.
Proof.
  intros Hid. destruct (order_run_lookup trace s id o Hid) as (o' & Hid' & Hev).
  destruct Hev as (A1 & A2 & A3 & A4 & A5 & A6 & A7 & A8 & A9 & _).
  exists o'. repeat split; assumption.
Qed.

Lemma order_snapshot_immutable_witness :
  ∃ o', orders (order_run sampleTrace (storeWith pendingOrder)) !! 0%nat = Some o'
    ∧ o_items o' = sampleItems ∧ o_totalPrice o' = 37%Q.
Proof.
  destruct (order_snapshot_immutable sampleTrace (storeWith pendingOrder) 0%nat
              pendingOrder eq_refl)
    as (o' & Hid & _ & Hitems & _ & _ & _ & _ & _ & Htotal & _).
  exists o'. repeat split; assumption.
Defined.

(** X2: the status history of an order is append-only: after any sequence
    of order operations the history it had is a prefix of the history it
    has. *)
Theorem order_history_append_only trace s id o :
  orders s !! id = Some o →
  ∃ o', orders (order_run trace s) !! id = Some o'
    ∧ o_statusHistory o `prefix_of` o_statusHistory o'.
Proof.
  intros Hid. destruct (order_run_lookup trace s id o Hid) as (o' & Hid' & Hev).
  exists o'. split; [done |]. apply Hev.
Qed.

Lemma order_history_append_only_witness :
  ∃ o', orders (order_run sampleTrace (storeWith shippedOrder)) !! 0%nat = Some o'
    ∧ o_statusHistory shippedOrder `prefix_of` o_statusHistory o'.
Proof.
  exact (order_history_append_only sampleTrace (storeWith shippedOrder) 0%nat
           shippedOrder eq_refl).
Defined.

(** X3: no order operation takes back a mark: an order that is paid stays
    paid, an order that is marked delivered stays marked delivered and
    keeps its delivery date, whatever its status becomes. *)
Theorem order_marks_persist trace s id o :
  orders s !! id = Some o →
  ∃ o', orders (order_run trace s) !! id = Some o'
    ∧ (o_isPaid o = true → o_isPaid o' = true)
    ∧ (o_isDelivered o = true →
       o_isDelivered o' = true ∧ o_deliveredAt o' = o_deliveredAt o).
Proof.
  intros Hid. destruct (order_run_lookup trace s id o Hid) as (o' & Hid' & Hev).
  exists o'. split; [done |]. split; apply Hev.
Qed.

Lemma order_marks_persist_witness :
  ∃ o', orders (order_run sampleTrace (storeWith deliveredOrder)) !! 0%nat = Some o'
    ∧ o_isPaid o' = true ∧ o_isDelivered o' = true ∧ o_deliveredAt o' = Some 500.
Proof.
  destruct (order_marks_persist sampleTrace (storeWith deliveredOrder) 0%nat
              deliveredOrder eq_refl) as (o' & Hid & Hpaid & Hdel).
  exists o'. destruct (Hdel eq_refl) as [Hd Hat].
  split; [exact Hid |]. split; [exact (Hpaid eq_refl) |]. split; assumption.
Defined.

(** ** Placement, seen from its result *)

(** What the validation loop returns when it accepts the cart: every line
    is available, and the total adds up the lines. *)
Lemma validateItems_inr docs items acc price orderItems total :
  validateItems docs items acc price = inr (orderItems, total) →
  (∀ item, item ∈ items → lineAvailable docs item)
  ∧ total = fold_left (fun t item => (t + lineTotal docs item)%Q) items price.
Proof.
  revert acc price. induction items as [| cartItem rest IH]; intros acc price;
    simpl.
  - intros [= <- <-]. split; [| done].
    intros item Hin. by apply elem_of_nil in Hin.
  - destruct (docs !! ci_product cartItem) as [product |] eqn:Hdoc;
      [| discriminate].
    destruct (p_isActive product) eqn:Hactive; simpl; [| discriminate].
    destruct (outOfStock product (ci_quantity cartItem)) eqn:Hout;
      [discriminate |].
    intros Hrun. destruct (IH _ _ Hrun) as (Hall & ->).
    split.
    + intros item Hin. apply elem_of_cons in Hin as [-> | Hin]; [| by apply Hall].
      exists product. split; [done |]. split; [done |].
      by apply outOfStock_false.
    + simpl. f_equal. unfold lineTotal. by rewrite Hdoc.
Qed.

(** The checks of placement pass only on a valid request and a non-empty
    cart all of whose lines are available. *)
Lemma buildOrder_inr u req s cart doc :
  buildOrder u req s = inr (cart, doc) →
  or_valid req = true
  ∧ carts s !! u_id u = Some cart
  ∧ cart_items cart ≠ []
  ∧ (∀ item, item ∈ cart_items cart → lineAvailable (products s) item).
Proof.
  unfold buildOrder. intros Hbuild.
  destruct (or_valid req); simpl in Hbuild; [| discriminate].
  destruct (carts s !! u_id u) as [c |]; [| discriminate].
  destruct (cart_items c) as [| first rest] eqn:Hitems; [discriminate |].
  rewrite <- Hitems in *.
  replace (length (cart_items c) =? 0)%nat with false in Hbuild
    by (by rewrite Hitems).
  destruct (validateItems _ _ _ _) as [err | [orderItems itemsPrice]] eqn:Hval;
    [discriminate |].
  injection Hbuild as <- _.
  apply validateItems_inr in Hval as [Hall _].
  repeat split; [by rewrite Hitems |].
  intros item Hin. destruct (Hall item Hin) as (p & Hp & H).
  exists p. split; [| done]. by rewrite <- (populate_lookup_item _ (cart_items c)).
Qed.

(** X4: a placement never writes.  Whatever the request and the store,
    [createOrder] answers with a failure and leaves the store exactly as it
    was: no order, no stock movement, the cart untouched.  The status is
    400 with the error of the first check that fails, and it is 500 exactly
    when the request is valid and the cart is non-empty with every line
    available, the case in which [Order.create] refuses the document. *)
Theorem createOrder_never_writes e u req s :
  ∃ code err,
    createOrder e u req s = (s, Failure code err)
    ∧ (code = 400 ∨ code = 500)
    ∧ (code = 500 ↔
       or_valid req = true
       ∧ ∃ cart, carts s !! u_id u = Some cart
           ∧ cart_items cart ≠ []
           ∧ ∀ item, item ∈ cart_items cart → lineAvailable (products s) item).
Proof.
  rewrite createOrder_answer.
  destruct (buildOrder u req s) as [err | [cart doc]] eqn:Hbuild.
  - exists 400, err. split; [done |]. split; [by left |].
    split; [discriminate |].
    intros (Hvalid & cart & Hcart & Hitems & Hall).
    destruct (buildOrder_available u req s cart Hvalid Hcart Hitems Hall)
      as (doc & Hdoc & _).
    congruence.
  - exists 500, ServerError. split; [done |]. split; [by right |].
    split; [| done]. intros _.
    destruct (buildOrder_inr _ _ _ _ _ Hbuild) as (Hvalid & Hcart & Hitems & Hall).
    split; [done |]. by exists cart.
Qed.

(** X5: an order that has an order number keeps it: whatever sequence of
    order operations runs, the order at that id carries the same number. *)
Theorem order_number_stable trace s id o :
  orders s !! id = Some o →
  is_Some (o_orderNumber o) →
  ∃ o', orders (order_run trace s) !! id = Some o'
    ∧ o_orderNumber o' = o_orderNumber o.
Proof.
  intros Hid Hnum.
  destruct (order_run_lookup trace s id o Hid) as (o' & Hid' & Hev).
  exists o'. split; [done |].
  destruct Hev as (_ & _ & _ & _ & _ & _ & _ & _ & _ & Hn & _). by apply Hn.
Qed.

Lemma order_number_stable_witness :
  ∃ o', orders (order_run sampleTrace (storeWith pendingOrder)) !! 0%nat = Some o'
    ∧ o_orderNumber o' = Some (mkOrderNumber 123456 42).
Proof.
  destruct (order_number_stable sampleTrace (storeWith pendingOrder) 0%nat
              pendingOrder eq_refl) as (o' & Hid & Hnum).
  - by eexists.
  - exists o'. split; [exact Hid | exact Hnum].
Defined.

(** ** Cancelling again *)

Lemma cancelOrder_success_inv e u id s s1 code o1 :
  cancelOrder e u id s = (s1, Success code o1) →
  ∃ order, orders s !! id = Some order
    ∧ canCancel (o_status order) = true
    ∧ code = 200
    ∧ orders s1 !! id = Some o1
    ∧ o_status o1 = cancelled
    ∧ products s1 = restoreInventory (o_items order) (products s)
    ∧ carts s1 = carts s
    ∧ (o_user order = u_id u ∨ u_role u = admin)
    ∧ o_user o1 = o_user order
    ∧ o_items o1 = o_items order.
Proof.
  unfold cancelOrder. intros Hrun.
  destruct (orders s !! id) as [order |] eqn:Hfind; [| discriminate].
  destruct (bool_decide (o_user order ≠ u_id u) && bool_decide (u_role u ≠ admin))
    eqn:Hauth; [discriminate |].
  destruct (canCancel (o_status order)) eqn:Hcan; [| discriminate].
  simpl in Hrun. inversion Hrun. subst. exists order.
  repeat split; try done.
  - simpl. apply list_lookup_insert_eq. by eapply lookup_lt_Some.
  - by rewrite pre_save_order_status.
  - apply andb_false_iff in Hauth as [H | H]; apply bool_decide_eq_false in H.
    + left. by destruct (decide (o_user order = u_id u)).
    + right. by destruct (decide (u_role u = admin)).
  - match goal with
    | |- o_user (pre_save_order ?e' ?n ?l ?o) = _ =>
        by destruct (pre_save_order_frame e' n l o) as (-> & _)
    end.
  - by rewrite pre_save_order_items.
Qed.

(** X8: right after a successful cancellation, a further cancellation of
    the same order on the store it left, by any caller at any time, is
    refused and leaves that store as it is; for the owner and for an
    administrator the refusal is the 400 of an order that cannot be
    cancelled. *)
Theorem cancelOrder_once e u id s s1 code o1 e' u' :
  cancelOrder e u id s = (s1, Success code o1) →
  ∃ code' err, cancelOrder e' u' id s1 = (s1, Failure code' err)
    ∧ (o_user o1 = u_id u' ∨ u_role u' = admin →
       code' = 400 ∧ err = CannotCancel).
Proof.
  intros Hrun.
  destruct (cancelOrder_success_inv _ _ _ _ _ _ _ Hrun)
    as (order & _ & _ & _ & Hfind & Hst & _).
  unfold cancelOrder. rewrite Hfind.
  destruct (bool_decide (o_user o1 ≠ u_id u') && bool_decide (u_role u' ≠ admin))
    eqn:Hauth.
  - eexists _, _. split; [reflexivity |]. intros Hok.
    apply andb_true_iff in Hauth as [H1 H2].
    apply bool_decide_eq_true in H1. apply bool_decide_eq_true in H2.
    by destruct Hok.
  - rewrite Hst. simpl. eexists _, _. split; [reflexivity | done].
Qed.

Lemma cancelOrder_once_witness :
  ∃ s1, fst (cancelOrder (atTime 900) alice 0%nat (storeWith pendingOrder)) = s1
    ∧ cancelOrder (atTime 950) root 0%nat s1 = (s1, Failure 400 CannotCancel).
Proof.
  destruct (cancelOrder (atTime 900) alice 0%nat (storeWith pendingOrder))
    as [s1 r] eqn:Hrun.
  destruct r as [code o1 | code err];
    [| vm_compute in Hrun; inversion Hrun].
  destruct (cancelOrder_once _ _ _ _ _ _ _ (atTime 950) root Hrun)
    as (code' & err & Hagain & Hkind).
  destruct (Hkind (or_intror eq_refl)) as [-> ->].
  exists s1. split; [reflexivity | exact Hagain].
Defined.

(** X29: a cancellation can be repeated once the status is set back.  When
    a status update sets a cancelled order to pending or confirmed again,
    the same caller's next cancellation succeeds, and every tracked product
    then holds what it held before the first cancellation plus twice the
    quantity the order's lines ask of it. *)
Theorem cancelOrder_twice e e' e'' u id req s s1 code o1 :
  cancelOrder e u id s = (s1, Success code o1) →
  su_valid req = true →
  su_status req = pending ∨ su_status req = confirmed →
  ∃ s2 o2 s3 o3,
    updateOrderStatus e' id req s1 = (s2, Success 200 o2)
    ∧ cancelOrder e'' u id s2 = (s3, Success 200 o3)
    ∧ ∀ productId,
        products s3 !! productId
        = restocked (2 * orderedQuantity productId (o_items o1))
          <$> products s !! productId.
Proof.
  intros Hrun Hvalid Hopen.
  destruct (cancelOrder_success_inv _ _ _ _ _ _ _ Hrun)
    as (order & _ & _ & _ & Hfind1 & _ & Hstock1 & _ & Hauth & Huser & Hitems).
  destruct (updateOrderStatus_result e' id req s1 o1 Hvalid Hfind1)
    as (s2 & o2 & Hupdate & Hfind2 & Hstock2 & _ & Hst2 & _).
  pose proof (updateOrderStatus_rewrites e' id req s1) as Hrw.
  rewrite Hupdate in Hrw. simpl in Hrw.
  destruct (rewrites_lookup _ _ id o1 Hrw Hfind1) as (o2' & Hfind2' & Hev).
  rewrite Hfind2 in Hfind2'. injection Hfind2' as <-.
  destruct Hev as (Huser2 & Hitems2 & _).
  destruct (cancelOrder_success e'' u id s2 o2 Hfind2) as (o3 & Hcancel & _).
  { by rewrite Huser2, Huser. }
  { apply canCancel_spec. by rewrite Hst2. }
  eexists s2, o2, _, o3. split; [done |]. split; [exact Hcancel |].
  intros productId. simpl.
  rewrite restoreInventory_lookup, Hstock2, Hstock1, restoreInventory_lookup.
  rewrite Hitems2, Hitems.
  destruct (products s !! productId) as [p |]; simpl; [| done].
  rewrite restocked_restocked. do 2 f_equal. lia.
Qed.

(** An order of two units of productA, with three in stock: cancelled, set
    back to pending and cancelled again, it leaves seven in stock. *)
Lemma cancelOrder_twice_witness :
  ∃ s2 o2 s3 o3,
    updateOrderStatus (atTime 950) 0%nat
      (mkStatusUpdate true pending None None None)
      (fst (cancelOrder (atTime 900) alice 0%nat (storeWith pendingOrder)))
    = (s2, Success 200 o2)
    ∧ cancelOrder (atTime 990) alice 0%nat s2 = (s3, Success 200 o3)
    ∧ (p_quantity <$> products (storeWith pendingOrder) !! 1%N) = Some 3
    ∧ (p_quantity <$> products s3 !! 1%N) = Some 7.
Proof.
  destruct (cancelOrder (atTime 900) alice 0%nat (storeWith pendingOrder))
    as [s1 r] eqn:Hrun.
  destruct r as [code o1 | code err];
    [| vm_compute in Hrun; inversion Hrun].
  destruct (cancelOrder_twice (atTime 900) (atTime 950) (atTime 990) alice 0%nat
              (mkStatusUpdate true pending None None None)
              (storeWith pendingOrder) s1 code o1 Hrun eq_refl
              (or_introl eq_refl))
    as (s2 & o2 & s3 & o3 & Hupdate & Hcancel & Hstock).
  exists s2, o2, s3, o3. split; [exact Hupdate |]. split; [exact Hcancel |].
  split; [reflexivity |]. rewrite (Hstock 1%N).
  vm_compute in Hrun. injection Hrun as _ _ <-. reflexivity.
Defined.

(** ** Status updates, payment confirmation and the webhook *)

(** X10: an administrator's status update is not guarded by the current
    status: for an existing order and a request that passes validation it
    succeeds from any status to any status, and it changes no product and
    no cart; setting an order to cancelled this way puts no stock back. *)
Theorem updateOrderStatus_unguarded e id req s order :
  su_valid req = true →
  orders s !! id = Some order →
  ∃ s' o', updateOrderStatus e id req s = (s', Success 200 o')
    ∧ orders s' !! id = Some o'
    ∧ o_status o' = su_status req
    ∧ products s' = products s ∧ carts s' = carts s.
Proof.
  intros Hvalid Hfind.
  destruct (updateOrderStatus_result e id req s order Hvalid Hfind)
    as (s' & o' & Hrun & Hlook & Hps & Hcs & Hst & _).
  by exists s', o'.
Qed.

Lemma updateOrderStatus_unguarded_witness :
  ∃ s' o', updateOrderStatus (atTime 900) 0%nat
             (mkStatusUpdate true cancelled None None None)
             (storeWith deliveredOrder) = (s', Success 200 o')
    ∧ o_status o' = cancelled
    ∧ products s' = products (storeWith deliveredOrder).
Proof.
  destruct (updateOrderStatus_unguarded (atTime 900) 0%nat
              (mkStatusUpdate true cancelled None None None)
              (storeWith deliveredOrder) deliveredOrder eq_refl eq_refl)
    as (s' & o' & Hrun & _ & Hst & Hps & _).
  by exists s', o'.
Defined.

(** X11: the webhook changes nothing unless the event is a signed
    [payment_intent.succeeded]; such an event changes no product, no cart
    and no order other than the one its metadata names, and it adds none. *)
Theorem stripeWebhook_scope e signed ev s :
  (signed = false ∨ (∀ paymentIntent, ev ≠ payment_intent_succeeded paymentIntent) →
   fst (stripeWebhook e signed ev s) = s)
  ∧ products (fst (stripeWebhook e signed ev s)) = products s
  ∧ carts (fst (stripeWebhook e signed ev s)) = carts s
  ∧ length (orders (fst (stripeWebhook e signed ev s))) = length (orders s)
  ∧ (∀ paymentIntent id,
       ev = payment_intent_succeeded paymentIntent →
       id ≠ intent_orderId paymentIntent →
       orders (fst (stripeWebhook e signed ev s)) !! id = orders s !! id).
Proof.
  unfold stripeWebhook, handlePaymentSuccess, handlePaymentFailure.
  destruct signed; simpl; [| by repeat split].
  destruct ev as [paymentIntent | other | |]; simpl;
    try (by repeat split).
  destruct (orders s !! intent_orderId paymentIntent) as [order |] eqn:Hfind.
  - split; [intros [? | Hne]; [done | by destruct (Hne paymentIntent)] |].
    split; [done |]. split; [done |]. simpl.
    split; [by rewrite length_insert |].
    intros paymentIntent' id [= <-] Hne. by apply list_lookup_insert_ne.
  - repeat split; done.
Qed.

Lemma stripeWebhook_scope_witness :
  fst (stripeWebhook (atTime 900) false
         (payment_intent_succeeded (mkPaymentIntent "pi_1" 0%nat))
         (storeWith pendingOrder)) = storeWith pendingOrder.
Proof.
  destruct (stripeWebhook_scope (atTime 900) false
              (payment_intent_succeeded (mkPaymentIntent "pi_1" 0%nat))
              (storeWith pendingOrder)) as (Hsame & _).
  apply Hsame. left. reflexivity.
Defined.

(** X12: only the owner can confirm a payment, and only a succeeded intent
    counts: for any other caller, an administrator included, the answer is
    403, for any other gateway answer it is a failure, and in both cases
    the store is as before. *)
Theorem confirmPayment_refusals e u id txn retrieved s order :
  orders s !! id = Some order →
  (o_user order ≠ u_id u →
   confirmPayment e u id txn retrieved s = (s, Failure 403 NotAuthorized))
  ∧ (o_user order = u_id u → retrieved ≠ Some succeeded →
     ∃ code err, confirmPayment e u id txn retrieved s = (s, Failure code err)).
Proof.
  intros Hfind. unfold confirmPayment. rewrite Hfind. split.
  - intros Hne. by rewrite bool_decide_eq_true_2.
  - intros Heq Hnot. rewrite bool_decide_eq_false_2 by (intros Hne; by apply Hne).
    destruct retrieved as [[] |]; try (exfalso; by apply Hnot); by eexists _, _.
Qed.

Lemma confirmPayment_refusals_witness :
  confirmPayment (atTime 900) root 0%nat "pi_1" (Some succeeded)
    (storeWith pendingOrder)
  = (storeWith pendingOrder, Failure 403 NotAuthorized).
Proof.
  destruct (confirmPayment_refusals (atTime 900) root 0%nat "pi_1"
              (Some succeeded) (storeWith pendingOrder) pendingOrder eq_refl)
    as (Hother & _).
  apply Hother. simpl. discriminate.
Defined.

(** X13: once an order is paid no new payment intent is created for it:
    after any later sequence of order operations [createPaymentIntent]
    refuses, with "already paid" for the owner, and leaves the store as it
    is. *)
Theorem paid_order_no_new_intent gateway u trace s id o :
  orders s !! id = Some o →
  o_isPaid o = true →
  ∃ code err,
    createPaymentIntent gateway u id (order_run trace s)
    = (order_run trace s, Refused code err)
    ∧ (o_user o = u_id u → code = 400 ∧ err = OrderAlreadyPaid).
Proof.
  intros Hid Hpaid.
  destruct (order_run_lookup trace s id o Hid) as (o' & Hid' & Hev).
  destruct Hev as (Huser & _ & _ & _ & _ & _ & _ & _ & _ & _ & _ & Hkeep & _).
  unfold createPaymentIntent. rewrite Hid', Huser, (Hkeep Hpaid).
  destruct (bool_decide (o_user o ≠ u_id u)) eqn:Hown.
  - eexists _, _. split; [reflexivity |]. intros Heq.
    apply bool_decide_eq_true in Hown. done.
  - eexists _, _. split; [reflexivity | done].
Qed.

Lemma paid_order_no_new_intent_witness :
  ∃ code err,
    createPaymentIntent (fun _ => Some "secret"%string) alice 0%nat
      (order_run sampleTrace (storeWith confirmedPaidOrder))
    = (order_run sampleTrace (storeWith confirmedPaidOrder), Refused code err)
    ∧ code = 400 ∧ err = OrderAlreadyPaid.
Proof.
  destruct (paid_order_no_new_intent (fun _ => Some "secret"%string) alice
              sampleTrace (storeWith confirmedPaidOrder) 0%nat
              confirmedPaidOrder eq_refl eq_refl)
    as (code & err & Hrun & Hkind).
  exists code, err. split; [exact Hrun |]. exact (Hkind eq_refl).
Defined.

(** ** Cart lines *)

Lemma cartQuantity_pre_save productId items :
  cartQuantity productId (map item_pre_save items) = cartQuantity productId items.
Proof. induction items as [| x l IH]; simpl; [done |]. by rewrite IH. Qed.

Lemma products_pre_save items :
  map ci_product (map item_pre_save items) = map ci_product items.
Proof. induction items as [| x l IH]; simpl; [done |]. by rewrite IH. Qed.

Lemma cartQuantity_insert productId items i old new :
  items !! i = Some old →
  cartQuantity productId (<[i := new]> items)
  = cartQuantity productId items - lineQuantity productId old
    + lineQuantity productId new.
Proof.
  unfold lineQuantity. revert i.
  induction items as [| x l IH]; intros [| i] Hi; simpl in *; try done.
  - inversion Hi. subst. lia.
  - rewrite (IH i Hi). lia.
Qed.

Lemma cartQuantity_absent productId items :
  productId ∉ map ci_product items → cartQuantity productId items = 0.
Proof.
  induction items as [| x l IH]; simpl; [done |]. intros Hnot.
  rewrite not_elem_of_cons in Hnot. destruct Hnot as [Hne Hnot].
  rewrite decide_False by done. by rewrite IH.
Qed.

(** On a cart with distinct lines, the quantity asked of a product is the
    quantity of its line. *)
Lemma cartQuantity_distinct productId items i item :
  NoDup (map ci_product items) →
  items !! i = Some item → ci_product item = productId →
  cartQuantity productId items = ci_quantity item.
Proof.
  revert i. induction items as [| x l IH]; intros [| i] Hnd Hi Hp;
    simpl in *; try done.
  - inversion Hi. subst. rewrite decide_True by done.
    apply NoDup_cons in Hnd as [Hnot _].
    rewrite cartQuantity_absent by done. lia.
  - apply NoDup_cons in Hnd as [Hnot Hnd].
    rewrite (IH i Hnd Hi Hp). rewrite decide_False; [lia |].
    intros Heq. apply Hnot. rewrite Heq, <- Hp.
    apply list_elem_of_In, in_map, list_elem_of_In.
    by eapply list_elem_of_lookup_2.
Qed.

Lemma findLine_Some productId items i item :
  findLine productId items = Some (i, item) →
  items !! i = Some item ∧ ci_product item = productId.
Proof.
  unfold findLine. intros Hfind. apply list_find_Some in Hfind.
  by destruct Hfind as (? & ? & _).
Qed.

Lemma findLine_None productId items :
  findLine productId items = None ↔ productId ∉ map ci_product items.
Proof.
  unfold findLine. rewrite list_find_None, Forall_forall. split.
  - intros Hall Hin. apply list_elem_of_In, in_map_iff in Hin as (x & Hx & Hin).
    apply (Hall x); [by apply list_elem_of_In | done].
  - intros Hnot x Hin Hx. apply Hnot. rewrite <- Hx.
    apply list_elem_of_In, in_map, list_elem_of_In, Hin.
Qed.

(** What the lazy creation of a cart leaves in the store. *)
Lemma findOrCreateCart_eq e owner s :
  ∃ s1 cart, findOrCreateCart e owner s = (s1, cart)
    ∧ cart_items cart = linesOf s owner
    ∧ products s1 = products s ∧ orders s1 = orders s
    ∧ carts s1 !! owner = Some cart
    ∧ (∀ c, <[owner := c]> (carts s1) = <[owner := c]> (carts s)).
Proof.
  unfold findOrCreateCart, linesOf, Cart_create.
  destruct (carts s !! owner) as [c |] eqn:Hc.
  - exists s, c. by repeat split.
  - eexists _, _. split; [reflexivity |]. simpl.
    repeat split; try done.
    + apply lookup_insert_eq.
    + intros c. apply insert_insert_eq.
Qed.

Lemma cartQuantity_filter_other productId removed items :
  productId ≠ removed →
  cartQuantity productId
    (List.filter (fun item => bool_decide (ci_product item ≠ removed)) items)
  = cartQuantity productId items.
Proof.
  intros Hne. induction items as [| x l IH]; simpl; [done |].
  destruct (bool_decide (ci_product x ≠ removed)) eqn:Hx; simpl.
  - by rewrite IH.
  - apply bool_decide_eq_false in Hx. apply dec_stable in Hx.
    rewrite decide_False by congruence. by rewrite IH.
Qed.

Lemma filter_removes removed items :
  removed ∉ (map ci_product
               (List.filter (fun item => bool_decide (ci_product item ≠ removed))
                  items)).
Proof.
  intros Hin. apply list_elem_of_In, in_map_iff in Hin as (x & Hx & Hin).
  apply filter_In in Hin as [_ Hkeep]. apply bool_decide_eq_true in Hkeep.
  done.
Qed.

(** X15: after a successful [removeFromCart] no line of the cart names the
    product (every line that named it is gone), the quantities of all
    other products are as before, and neither products nor orders have
    changed. *)
Theorem removeFromCart_removes e u productId s s' code cart' :
  removeFromCart e u productId s = (s', Success code cart') →
  carts s' !! u_id u = Some cart'
  ∧ (productId ∉ map ci_product (cart_items cart'))
  ∧ (∀ other, other ≠ productId →
       cartQuantity other (cart_items cart')
       = cartQuantity other (linesOf s (u_id u)))
  ∧ products s' = products s ∧ orders s' = orders s.
Proof.
  unfold removeFromCart, linesOf.
  destruct (carts s !! u_id u) as [cart |] eqn:Hcart; [| discriminate].
  intros [= <- _ <-]. simpl.
  split; [apply lookup_insert_eq |].
  split; [rewrite products_pre_save; apply filter_removes |].
  split; [| done].
  intros other Hne. rewrite cartQuantity_pre_save.
  by apply cartQuantity_filter_other.
Qed.

Lemma removeFromCart_removes_witness :
  ∃ cart', snd (removeFromCart (atTime 100) alice 1%N sampleStore)
           = Success 200 cart'
    ∧ (1%N ∉ map ci_product (cart_items cart'))
    ∧ cartQuantity 2%N (cart_items cart') = 1.
Proof.
  destruct (removeFromCart (atTime 100) alice 1%N sampleStore)
    as [s' r] eqn:Hrun.
  destruct r as [code cart' | code err];
    [| vm_compute in Hrun; inversion Hrun].
  destruct (removeFromCart_removes _ _ _ _ _ _ _ Hrun)
    as (_ & Hgone & Hother & _).
  exists cart'. split; [vm_compute in Hrun; by inversion Hrun |].
  split; [exact Hgone |]. by apply (Hother 2%N).
Defined.

Lemma filter_length_eq {A} (f : A → bool) (l : list A) :
  length (List.filter f l) = length l → List.filter f l = l.
Proof.
  induction l as [| x l IH]; simpl; [done |].
  destruct (f x); simpl.
  - intros [= Hlen]. by rewrite IH.
  - intros Hlen. pose proof (filter_length_le f l). lia.
Qed.

Lemma lineActive_listed ps item :
  lineActive ps item = true ↔ lineListed ps item.
Proof.
  unfold lineActive, lineListed. destruct (ps !! ci_product item) as [p |].
  - split.
    + intros Hp. exists p. by split.
    + intros (q & Hq & Hactive). by inversion Hq.
  - split; [done |]. intros (q & Hq & _). discriminate.
Qed.

(** X16: [getCart] always answers with the account's cart, creating it when
    there is none, and every line it returns names an existing, active
    product: the lines of missing or deactivated products are dropped, the
    others kept in order.  When the cart exists and has no such line,
    reading it writes nothing. *)
Theorem getCart_prunes e u s :
  ∃ s' cart', getCart e u s = (s', Success 200 cart')
    ∧ carts s' !! u_id u = Some cart'
    ∧ products s' = products s ∧ orders s' = orders s
    ∧ map ci_product (cart_items cart')
      = map ci_product
          (List.filter (lineActive (products s)) (linesOf s (u_id u)))
    ∧ Forall (lineListed (products s)) (cart_items cart')
    ∧ (is_Some (carts s !! u_id u) →
       Forall (lineListed (products s)) (linesOf s (u_id u)) → s' = s).
Proof.
  unfold getCart.
  destruct (findOrCreateCart_eq e (u_id u) s)
    as (s1 & cart & Hfo & Hitems & Hps & Hos & Hlook & Hins).
  rewrite Hfo, Hitems.
  assert (Hactive : Forall (lineListed (products s))
                      (List.filter (lineActive (products s)) (linesOf s (u_id u)))).
  { apply Forall_forall. intros item Hin.
    apply list_elem_of_In, filter_In in Hin as [_ Hkeep].
    by apply lineActive_listed. }
  destruct (length (List.filter (lineActive (products s)) (linesOf s (u_id u)))
            =? length (linesOf s (u_id u)))%nat eqn:Hlen; simpl.
  - apply Nat.eqb_eq, filter_length_eq in Hlen.
    exists s1, cart. split; [done |]. split; [done |].
    split; [done |]. split; [done |].
    rewrite Hitems, Hlen. split; [done |].
    split; [by rewrite Hlen in Hactive |].
    intros [c Hc] _. unfold findOrCreateCart in Hfo. rewrite Hc in Hfo.
    by inversion Hfo.
  - eexists _, _. split; [reflexivity |]. simpl.
    split; [apply lookup_insert_eq |].
    split; [done |]. split; [done |].
    rewrite products_pre_save. split; [done |].
    split.
    + apply Forall_forall. intros item Hin.
      apply list_elem_of_In, in_map_iff in Hin as (j & <- & Hj).
      rewrite Forall_forall in Hactive.
      by apply (Hactive j), list_elem_of_In.
    + intros _ Hall. apply Nat.eqb_neq in Hlen. exfalso. apply Hlen.
      f_equal. apply filter_keep_all. apply Forall_forall. intros item Hin.
      rewrite Forall_forall in Hall. by apply lineActive_listed, Hall.
Qed.

Lemma getCart_prunes_witness :
  ∃ cart', snd (getCart (atTime 100) alice staleStore) = Success 200 cart'
    ∧ map ci_product (cart_items cart') = [2%N].
Proof.
  destruct (getCart_prunes (atTime 100) alice staleStore)
    as (s' & cart' & Hrun & _ & _ & _ & Hlines & _).
  exists cart'. split; [by rewrite Hrun | exact Hlines].
Defined.

(** What the sync loop adds to its two accumulators: lines that are
    available and consistent, and one line or one error per client line. *)
Lemma syncItems_spec ps items acc errs :
  ∃ lines newErrs,
    syncItems ps items acc errs = (acc ++ lines, errs ++ newErrs)
    ∧ Forall (lineAvailable ps) lines
    ∧ Forall line_ok lines
    ∧ (length lines + length newErrs = length items)%nat.
Proof.
  revert acc errs. induction items as [| item rest IH]; intros acc errs; simpl.
  - exists [], []. rewrite !app_nil_r. by repeat split.
  - destruct (ps !! si_productId item) as [product |] eqn:Hp.
    + destruct (p_isActive product) eqn:Hactive; simpl.
      * destruct (outOfStock product (si_quantity item)) eqn:Hout.
        -- destruct (IH acc (push errs (InsufficientStock (p_quantity product)
                                          (Some (p_name product)))))
             as (lines & newErrs & -> & Hav & Hok & Hlen).
           eexists lines, (_ :: newErrs). unfold push. rewrite <- app_assoc.
           split; [reflexivity |]. repeat split; try done. simpl. lia.
        -- destruct (IH (push acc (mkCartItem (si_productId item)
                                     (si_quantity item) (p_price product)
                                     (inject_Z (si_quantity item) * p_price product)%Q))
                       errs)
             as (lines & newErrs & -> & Hav & Hok & Hlen).
           eexists (_ :: lines), newErrs. unfold push. rewrite <- app_assoc.
           split; [reflexivity |]. split; [| split].
           ++ constructor; [| done]. exists product.
              split; [done |]. split; [done |]. by apply outOfStock_false.
           ++ constructor; [reflexivity | done].
           ++ simpl. lia.
      * destruct (IH acc (push errs ProductNotFound))
          as (lines & newErrs & -> & Hav & Hok & Hlen).
        eexists lines, (_ :: newErrs). unfold push. rewrite <- app_assoc.
        split; [reflexivity |]. repeat split; try done. simpl. lia.
    + destruct (IH acc (push errs ProductNotFound))
        as (lines & newErrs & -> & Hav & Hok & Hlen).
      eexists lines, (_ :: newErrs). unfold push. rewrite <- app_assoc.
      split; [reflexivity |]. repeat split; try done. simpl. lia.
Qed.

(** X17: a [syncCart] that passes validation always succeeds and replaces
    the cart: the new lines depend on the client's lines and the catalogue
    only, every one of them names an existing, active product with enough
    tracked stock for its quantity, each client line became either a cart
    line or an error message, and products and orders are as before. *)
Theorem syncCart_replaces e u items s :
  ∃ s' cart' errs,
    syncCart e u true items s = (s', Success 200 (cart', errs))
    ∧ carts s' !! u_id u = Some cart'
    ∧ products s' = products s ∧ orders s' = orders s
    ∧ cart_items cart' = fst (syncItems (products s) items [] [])
    ∧ Forall (lineAvailable (products s)) (cart_items cart')
    ∧ (length (cart_items cart') + length errs = length items)%nat.
Proof.
  unfold syncCart. simpl.
  destruct (findOrCreateCart_eq e (u_id u) s)
    as (s1 & cart & -> & Hitems & Hps & Hos & Hlook & Hins).
  rewrite Hps.
  destruct (syncItems_spec (products s) items [] [])
    as (lines & errs & -> & Hav & Hok & Hlen).
  simpl. eexists _, _, _. split; [reflexivity |]. simpl.
  rewrite (map_item_pre_save_id lines Hok).
  split; [rewrite Hins; apply lookup_insert_eq |].
  by repeat split.
Qed.

(** X18: [updateCartItem] refuses, with "Item not found in cart" and
    without writing, a product that is on no line of the cart, whether or
    not the product exists; when it succeeds the product exists and is
    active, the quantities of all other products are as before, and on a
    cart with distinct lines the cart asks of the product exactly the
    requested quantity, which the tracked stock covers. *)
Theorem updateCartItem_sets e u req s :
  (∀ cart, cr_valid req = true →
     carts s !! u_id u = Some cart →
     cr_productId req ∉ map ci_product (cart_items cart) →
     updateCartItem e u req s = (s, Failure 404 ItemNotInCart))
  ∧ (∀ s' code cart',
       updateCartItem e u req s = (s', Success code cart') →
       ∃ product,
         products s !! cr_productId req = Some product
         ∧ p_isActive product = true
         ∧ carts s' !! u_id u = Some cart'
         ∧ products s' = products s ∧ orders s' = orders s
         ∧ (∀ other, other ≠ cr_productId req →
              cartQuantity other (cart_items cart')
              = cartQuantity other (linesOf s (u_id u)))
         ∧ (NoDup (map ci_product (linesOf s (u_id u))) →
            cartQuantity (cr_productId req) (cart_items cart') = cr_quantity req
            ∧ (p_trackQuantity product = true →
               cr_quantity req ≤ p_quantity product))).
Proof.
  unfold updateCartItem, linesOf. split.
  - intros cart -> Hcart Habsent. rewrite Hcart. simpl.
    apply findLine_None in Habsent. by rewrite Habsent.
  - intros s' code cart'. destruct (cr_valid req); simpl; [| discriminate].
    destruct (carts s !! u_id u) as [cart |] eqn:Hcart; [| discriminate].
    destruct (findLine (cr_productId req) (cart_items cart))
      as [[i existing] |] eqn:Hfind; [| discriminate].
    apply findLine_Some in Hfind as [Hi Hp].
    destruct (products s !! cr_productId req) as [product |] eqn:Hproduct;
      [| discriminate].
    destruct (p_isActive product) eqn:Hactive; simpl; [| discriminate].
    destruct (outOfStock product (cr_quantity req)) eqn:Hout; [discriminate |].
    intros [= <- _ <-]. simpl. exists product.
    split; [done |]. split; [done |].
    split; [apply lookup_insert_eq |]. split; [done |]. split; [done |].
    split.
    + intros other Hne. rewrite cartQuantity_pre_save,
        (cartQuantity_insert _ _ _ _ _ Hi).
      unfold lineQuantity. simpl. rewrite !decide_False by congruence. lia.
    + intros Hnd. split.
      * rewrite cartQuantity_pre_save, (cartQuantity_insert _ _ _ _ _ Hi).
        unfold lineQuantity. simpl. rewrite !decide_True by done.
        rewrite (cartQuantity_distinct _ _ _ _ Hnd Hi Hp). lia.
      * by apply outOfStock_false.
Qed.

Lemma updateCartItem_sets_witness :
  updateCartItem (atTime 100) alice (mkCartRequest true 3%N 1) sampleStore
  = (sampleStore, Failure 404 ItemNotInCart)
  ∧ ∃ cart', snd (updateCartItem (atTime 100) alice (mkCartRequest true 1%N 4)
                    sampleStore) = Success 200 cart'
      ∧ cartQuantity 1%N (cart_items cart') = 4.
Proof.
  split.
  - destruct (updateCartItem_sets (atTime 100) alice (mkCartRequest true 3%N 1)
                sampleStore) as [Habsent _].
    apply (Habsent sampleCart); [reflexivity | reflexivity |].
    vm_compute. intros Hin.
    repeat (inversion Hin as [| ? ? ? Hin']; clear Hin; rename Hin' into Hin).
  - destruct (updateCartItem_sets (atTime 100) alice (mkCartRequest true 1%N 4)
                sampleStore) as [_ Hok].
    destruct (updateCartItem (atTime 100) alice (mkCartRequest true 1%N 4)
                sampleStore) as [s' r] eqn:Hrun.
    destruct r as [code cart' | code err];
      [| vm_compute in Hrun; inversion Hrun].
    destruct (Hok s' code cart' eq_refl) as (product & _ & _ & _ & _ & _ & _ & Hset).
    exists cart'. split; [vm_compute in Hrun; by inversion Hrun |].
    apply Hset. vm_compute. repeat constructor.
    + intros Hin.
      repeat (inversion Hin as [| ? ? ? Hin']; clear Hin; rename Hin' into Hin).
    + intros Hin. inversion Hin.
Defined.

(** ** Slugs *)

Lemma string_map_map f g str :
  string_map f (string_map g str) = string_map (fun c => f (g c)) str.
Proof. induction str as [| c str IH]; simpl; [done |]. by rewrite IH. Qed.

Lemma slugify_steps name : slugify name = string_map slugStep name.
Proof. unfold slugify. by rewrite string_map_map. Qed.

Lemma slugStep_shape c :
  slugChar (slugStep c) = true ∧ slugStep (slugStep c) = slugStep c.
Proof.
  destruct c as [[] [] [] [] [] [] [] []]; vm_compute; by split.
Qed.

(** X23: the slug hook gives a category (and a product) whose name changed
    a slug that has as many characters as the name, consists of lower-case
    letters, digits and hyphens only, and is its own slug. *)
Theorem slug_shape c :
  let slug := slugify (cat_name c) in
  cat_slug (category_pre_save true c) = Some slug
  ∧ String.length slug = String.length (cat_name c)
  ∧ Forall (fun ch => slugChar ch = true) (list_ascii_of_string slug)
  ∧ slugify slug = slug.
Proof.
  simpl. split; [done |]. rewrite !slugify_steps.
  induction (cat_name c) as [| ch name (IH1 & IH2 & IH3)]; simpl.
  - by repeat split.
  - destruct (slugStep_shape ch) as [Hshape Hfix].
    split; [by rewrite IH1 |]. split; [by constructor |].
    by rewrite Hfix, IH3.
Qed.

(** ** The order list *)

Lemma orDefault_pos n d : n ≠ 0%N → orDefault (Some n) d = n.
Proof. by destruct n. Qed.

Lemma orDefault_ge_1 parsed d : (1 ≤ d)%N → (1 ≤ orDefault parsed d)%N.
Proof. destruct parsed as [[| n] |]; simpl; lia. Qed.

(** The page [p ≥ 1] of the order list. *)
Lemma getOrders_page u limit status s p :
  let L := N.to_nat (orDefault limit 10) in
  let all := rev (ordersOf u status s) in
  let page := getOrders u (Some (N.of_nat (S p))) limit status s in
  page_data page = take L (drop (p * L) all)
  ∧ (page_next page = None ↔ (length all ≤ S p * L)%nat).
Proof.
  intros L all page. subst page. unfold getOrders.
  rewrite orDefault_pos by lia. simpl page_data. simpl page_next.
  fold all. fold L.
  replace (N.to_nat ((N.of_nat (S p) - 1) * orDefault limit 10)) with (p * L)%nat
    by (subst L; lia).
  split; [done |].
  assert (Hlen : length (ordersOf u status s) = length all)
    by (subst all; by rewrite length_rev).
  rewrite Hlen.
  destruct (N.of_nat (S p) * orDefault limit 10 <? N.of_nat (length all))%N
    eqn:Hmore.
  - apply N.ltb_lt in Hmore. split; [done |]. intros Hle. subst L. lia.
  - apply N.ltb_ge in Hmore. split; [| done]. intros _. subst L. lia.
Qed.

(** X24: the pages of [getOrders] partition the caller's orders: the pages
    1 to [k] together are the first [k × limit] matching orders, newest
    first, without gap or repetition; a page has no next link exactly when
    the pages up to it hold all matching orders; and a page never holds
    more orders than the limit nor an order of another account. *)
Theorem getOrders_pages u limit status s k :
  let L := N.to_nat (orDefault limit 10) in
  let all := rev (ordersOf u status s) in
  pagesUpTo u limit status s k = take (k * L) all
  ∧ ((1 ≤ k)%nat →
     page_next (getOrders u (Some (N.of_nat k)) limit status s) = None →
     pagesUpTo u limit status s k = all)
  ∧ (∀ page,
       let result := getOrders u page limit status s in
       page_count result = length (page_data result)
       ∧ (page_count result ≤ L)%nat
       ∧ Forall (fun o => o_user o = u_id u) (page_data result)).
Proof.
  intros L all.
  assert (Hpages : ∀ n, pagesUpTo u limit status s n = take (n * L) all).
  { unfold pagesUpTo. induction n as [| n IH]; [done |].
    rewrite seq_S, flat_map_app, IH. cbn [flat_map]. rewrite app_nil_r.
    change (1 + n)%nat with (S n).
    destruct (getOrders_page u limit status s n) as [-> _].
    fold L. fold all. rewrite take_take_drop. f_equal. lia. }
  split; [apply Hpages |]. split.
  - intros Hk Hnext. rewrite Hpages. destruct k as [| k]; [lia |].
    apply (getOrders_page u limit status s k) in Hnext.
    fold L in Hnext. fold all in Hnext. by apply take_ge.
  - intros page result. subst result. unfold getOrders. simpl.
    split; [done |]. split.
    + rewrite length_take. fold L. lia.
    + apply Forall_forall. intros o Hin.
      apply subseteq_take, subseteq_drop in Hin.
      assert (Hall : In o (ordersOf u status s)).
      { apply in_rev. by apply list_elem_of_In. }
      unfold ordersOf in Hall. apply filter_In in Hall as [_ Hmatch].
      apply andb_true_iff in Hmatch as [Hmine _].
      by apply bool_decide_eq_true in Hmine.
Qed.

Lemma getOrders_pages_witness :
  pagesUpTo alice (Some 2%N) None threeOrders 2
  = [pendingOrder; shippedOrder; deliveredOrder].
Proof.
  destruct (getOrders_pages alice (Some 2%N) None threeOrders 2)
    as (_ & Hall & _).
  rewrite Hall; [reflexivity | lia | reflexivity].
Defined.

(** ** Switching a product off *)

Lemma getCart_lines e u s :
  ∃ s' cart', getCart e u s = (s', Success 200 cart')
    ∧ map ci_product (cart_items cart')
      = map ci_product
          (List.filter (lineActive (products s)) (linesOf s (u_id u))).
Proof.
  unfold getCart.
  destruct (findOrCreateCart_eq e (u_id u) s)
    as (s1 & cart & -> & Hitems & _ & _ & _ & _).
  rewrite Hitems.
  destruct (length (List.filter (lineActive (products s)) (linesOf s (u_id u)))
            =? length (linesOf s (u_id u)))%nat eqn:Hlen; simpl.
  - apply Nat.eqb_eq, filter_length_eq in Hlen.
    exists s1, cart. by rewrite Hitems, Hlen.
  - eexists _, _. split; [reflexivity |]. simpl. by rewrite products_pre_save.
Qed.

(** X25: [toggleProductStatus] is its own inverse, and while a product is
    switched off it cannot be added to a cart (404), an order cannot be
    placed from a cart that holds it (400, nothing written), and
    [getCart] no longer lists it. *)
Theorem toggleProductStatus_off id s product :
  products s !! id = Some product →
  p_isActive product = true →
  let s1 := fst (toggleProductStatus id s) in
  fst (toggleProductStatus id s1) = s
  ∧ (∀ e u quantity,
       addToCart e u (mkCartRequest true id quantity) s1
       = (s1, Failure 404 ProductNotFound))
  ∧ (∀ e u req,
       id ∈ map ci_product (linesOf s (u_id u)) →
       ∃ err, createOrder e u req s1 = (s1, Failure 400 err))
  ∧ (∀ e u, ∃ s2 cart',
       getCart e u s1 = (s2, Success 200 cart')
       ∧ id ∉ map ci_product (cart_items cart')).
Proof.
  intros Hproduct Hactive s1.
  assert (Hs1 : s1 = set_products s
                       (<[id := set_isActive product false]> (products s))).
  { subst s1. unfold toggleProductStatus. by rewrite Hproduct, Hactive. }
  assert (Hoff : products s1 !! id = Some (set_isActive product false)).
  { rewrite Hs1. simpl. apply lookup_insert_eq. }
  split; [| split; [| split]].
  - unfold toggleProductStatus. rewrite Hoff. simpl. rewrite Hs1. simpl.
    rewrite insert_insert_eq. destruct s as [ps cs os].
    unfold set_products. simpl in *. f_equal.
    apply insert_id. rewrite Hproduct. f_equal.
    destruct product. simpl in Hactive. by subst.
  - intros e u quantity. unfold addToCart. simpl. by rewrite Hoff.
  - intros e u req Hin.
    rewrite createOrder_answer.
    destruct (buildOrder u req s1) as [err | [cart doc]] eqn:Hbuild;
      [by exists err |].
    exfalso.
    destruct (buildOrder_inr _ _ _ _ _ Hbuild) as (_ & Hcart & _ & Hall).
    assert (Hlines : linesOf s (u_id u) = cart_items cart).
    { unfold linesOf. rewrite Hs1 in Hcart. simpl in Hcart. by rewrite Hcart. }
    rewrite Hlines in Hin.
    apply list_elem_of_In, in_map_iff in Hin as (item & Hid & Hitem).
    apply list_elem_of_In in Hitem.
    destruct (Hall item Hitem) as (p & Hp & Hact & _).
    rewrite Hid, Hoff in Hp.
    inversion Hp. subst p. discriminate.
  - intros e u. destruct (getCart_lines e u s1) as (s2 & cart' & Hrun & Hlines).
    exists s2, cart'. split; [done |]. rewrite Hlines. intros Hin.
    apply list_elem_of_In, in_map_iff in Hin as (item & Hid & Hitem).
    apply filter_In in Hitem as [_ Hkeep].
    unfold lineActive in Hkeep. rewrite Hid, Hoff in Hkeep. discriminate.
Qed.

Lemma toggleProductStatus_off_witness :
  fst (toggleProductStatus 1%N (fst (toggleProductStatus 1%N sampleStore)))
  = sampleStore
  ∧ ∃ err, createOrder (atTime 100) alice sampleRequest
             (fst (toggleProductStatus 1%N sampleStore))
           = (fst (toggleProductStatus 1%N sampleStore), Failure 400 err).
Proof.
  destruct (toggleProductStatus_off 1%N sampleStore productA eq_refl eq_refl)
    as (Hback & _ & Hblock & _).
  split; [exact Hback |].
  apply (Hblock (atTime 100) alice sampleRequest).
  vm_compute. constructor.
Defined.

(** ** Accounts *)

Lemma pendingOrders_pos userId s :
  (0 <? pendingOrders userId s)%nat = true
  ↔ ∃ o, o ∈ orders s ∧ o_user o = userId ∧ openStatus (o_status o) = true.
Proof.
  unfold pendingOrders. rewrite Nat.ltb_lt. split.
  - intros Hpos.
    destruct (List.filter _ (orders s)) as [| o rest] eqn:Hfilter;
      [simpl in Hpos; lia |].
    assert (Hin : In o (List.filter
                          (fun o => bool_decide (o_user o = userId)
                                    && openStatus (o_status o)) (orders s)))
      by (rewrite Hfilter; by left).
    apply filter_In in Hin as [Hin Hopen].
    apply andb_true_iff in Hopen as [Hmine Hopen].
    exists o. split; [by apply list_elem_of_In |].
    split; [by apply bool_decide_eq_true in Hmine | done].
  - intros (o & Hin & Hmine & Hopen).
    assert (Hfound : In o (List.filter
                             (fun o => bool_decide (o_user o = userId)
                                       && openStatus (o_status o)) (orders s))).
    { apply filter_In. split; [by apply list_elem_of_In |].
      by rewrite bool_decide_eq_true_2, Hopen. }
    destruct (List.filter _ (orders s)); [done | simpl; lia].
Qed.

(** X26: an account that has an order in status pending, confirmed,
    processing or shipped cannot be deleted: the call is refused and
    nothing changes.  When the deletion goes through, every order of the
    account is delivered, cancelled or refunded, the account is kept but
    inactive, its cart document is gone, and orders, products and the
    carts of other accounts are untouched. *)
Theorem deleteUserAccount_guard e u accounts s user :
  accounts !! u_id u = Some user →
  ((∃ o, o ∈ orders s ∧ o_user o = u_id u ∧ openStatus (o_status o) = true) →
   deleteUserAccount e u accounts s = (accounts, s, Refused 400 PendingOrders))
  ∧ (∀ accounts' s' code,
       deleteUserAccount e u accounts s = (accounts', s', Done code ()) →
       Forall (fun o => o_user o = u_id u → openStatus (o_status o) = false)
         (orders s)
       ∧ (acc_isActive <$> accounts' !! u_id u) = Some false
       ∧ carts s' !! u_id u = None
       ∧ (∀ other, other ≠ u_id u → carts s' !! other = carts s !! other)
       ∧ orders s' = orders s ∧ products s' = products s).
Proof.
  intros Huser. unfold deleteUserAccount. rewrite Huser.
  destruct (0 <? pendingOrders (u_id u) s)%nat eqn:Hopen.
  - split; [done |]. intros ? ? ? [=].
  - split.
    + intros Hex. apply pendingOrders_pos in Hex. congruence.
    + intros accounts' s' code [= <- <- _]. simpl.
      split; [| split; [| split; [| split]]].
      * apply Forall_forall. intros o Hin Hmine.
        destruct (openStatus (o_status o)) eqn:Ho; [| done].
        assert (Hpos : (0 <? pendingOrders (u_id u) s)%nat = true)
          by (apply pendingOrders_pos; by exists o).
        congruence.
      * by rewrite lookup_insert_eq.
      * apply lookup_delete_eq.
      * intros other Hne. by apply lookup_delete_ne.
      * done.
Qed.

Lemma deleteUserAccount_guard_witness :
  deleteUserAccount (atTime 900) alice (accountsOf "ada@shop.test")
    (storeWith shippedOrder)
  = (accountsOf "ada@shop.test", storeWith shippedOrder,
     Refused 400 PendingOrders).
Proof.
  destruct (deleteUserAccount_guard (atTime 900) alice
              (accountsOf "ada@shop.test") (storeWith shippedOrder)
              (mkAccount "ada@shop.test" customer true) eq_refl)
    as (Hrefuse & _).
  apply Hrefuse. exists shippedOrder. split; [| by split].
  simpl. apply elem_of_cons. by left.
Defined.


